(** * AnythingLLM client SDK and its method registry

    A shallow embedding of [services/anythingllm-sdk.ts] (the class
    [AnythingLLMClient] and the table [SDK_METHODS]) and of the argument
    pre-fill effect of [App.tsx], followed by the properties of the
    client's request/response contract.

    Conventions of the embedding.
    - A JavaScript string is a [string]; each [ascii] is one code unit, so
      the strings covered are those whose code units are below 256.
    - An [async] method is a term of [Async A]: it either is settled
      (fulfilled with a value or rejected with a thrown error) or awaits
      one [fetch] and continues with whatever the network hands back.
    - A [Response] carries its status line and what [response.text()] and
      [response.json()] settle to; the server is not modelled. *)

From Stdlib Require Import String Ascii List NArith Lia Bool DecimalString.
From Stdlib Require Import Floats.SpecFloat.
From stdpp Require Import base gmap strings list.

Set Warnings "-register-all".
Local Open Scope string_scope.
Local Open Scope N_scope.

(** ** JavaScript values *)

Module Js.

(** Values that [JSON.parse] can produce, plus [undefined]. A number is an
    IEEE 754 double, kept as data. *)
Inductive JsValue : Type :=
| JUndefined
| JNull
| JBool (b : bool)
| JNumber (x : spec_float)
| JString (s : string)
| JArray (items : list JsValue)
| JObject (fields : gmap string JsValue).

(** ToBoolean: [undefined], [null], [false], [±0], [NaN] and [""] are falsy;
    every array and object is truthy, the empty ones too. *)
Definition truthy (v : JsValue) : bool :=
  match v with
  | JUndefined | JNull => false
  | JBool b => b
  | JNumber (S754_zero _) | JNumber S754_nan => false
  | JNumber _ => true
  | JString "" => false
  | JString _ => true
  | JArray _ | JObject _ => true
  end.

(** [a || b] *)
Definition or_else (a b : JsValue) : JsValue := if truthy a then a else b.

(** [s || d] on strings *)
Definition str_or (s d : string) : string :=
  match s with "" => d | _ => s end.

(** A thrown value. Everything thrown here is an Error object: what [fetch]
    and the body readers reject with, the TypeError of a property read on
    [null] or [undefined], and the client's own [new Error(msg)]. *)
Record JsError : Type := MkError { err_name : string; err_message : string }.

(** [new Error(msg)] *)
Definition new_Error (msg : string) : JsError :=
  {| err_name := "Error"; err_message := msg |}.

Definition TypeError (msg : string) : JsError :=
  {| err_name := "TypeError"; err_message := msg |}.

(** A settled promise. *)
Inductive Settled (A : Type) : Type :=
| Fulfilled (a : A)
| Rejected (e : JsError).
Arguments Fulfilled {A} a.
Arguments Rejected {A} e.

(** [data.key], for the keys this program reads (none of them is defined
    by a built-in prototype): reading a property of [null] or [undefined]
    throws, an object answers with its own field, anything else with
    [undefined]. *)
Definition get (data : JsValue) (key : string) : Settled JsValue :=
  match data with
  | JUndefined =>
      Rejected (TypeError ("Cannot read properties of undefined (reading '" +:+ key +:+ "')"))
  | JNull =>
      Rejected (TypeError ("Cannot read properties of null (reading '" +:+ key +:+ "')"))
  | JObject fields => Fulfilled (default JUndefined (fields !! key))
  | _ => Fulfilled JUndefined
  end.

(** Template-literal rendering of a status code: decimal digits. *)
Definition show (n : N) : string := NilZero.string_of_uint (N.to_uint n).

(** [s.replace(/\/$/, '')]: the pattern matches a slash that is the last
    code unit of the input, so at most one slash goes. *)
Fixpoint replace_trailing_slash (s : string) : string :=
  match s with
  | "" => ""
  | String c "" => if Ascii.eqb c "/" then "" else s
  | String c rest => String c (replace_trailing_slash rest)
  end.

(** White space and line terminators of ECMAScript among the code units
    below 256: TAB, LF, VT, FF, CR, SP and NBSP. *)
Definition is_white (c : ascii) : bool :=
  let n := N_of_ascii c in
  (9 <=? n) && (n <=? 13) || (n =? 32) || (n =? 160).

Fixpoint trimStart (s : string) : string :=
  match s with
  | String c rest => if is_white c then trimStart rest else s
  | "" => ""
  end.

Fixpoint trimEnd (s : string) : string :=
  match s with
  | "" => ""
  | String c rest =>
      match trimEnd rest with
      | "" => if is_white c then "" else String c ""
      | rest' => String c rest'
      end
  end.

(** The one-character string holding a double quote (code unit 34). *)
Definition dquote : string := String (ascii_of_N 34) "".

(** [s.trim()] *)
Definition trim (s : string) : string := trimEnd (trimStart s).

End Js.
Export Js.

(** ** The network interface *)

(** The second argument of [fetch]. The body, when present, is
    [JSON.stringify(v)]; the value [v] is kept, not its text. *)
Inductive BodyInit : Type := JSON_stringify (v : JsValue).

Record RequestInit : Type := {
  method : string;
  headers : list (string * string);
  body : option BodyInit
}.

(** What the client reads of a [Response]. *)
Record Response : Type := {
  status : N;
  statusText : string;
  text : Settled string;      (* await response.text() *)
  json : Settled JsValue      (* await response.json() *)
}.

(** [response.ok]: the status is in the range 200-299. *)
Definition ok (response : Response) : bool :=
  (200 <=? status response) && (status response <=? 299).

(** ** Asynchronous computations *)

Inductive Async (A : Type) : Type :=
| Settle (o : Settled A)
| AwaitFetch (url : string) (init : RequestInit) (k : Settled Response -> Async A).
Arguments Settle {A} o.
Arguments AwaitFetch {A} url init k.

Definition ret {A} (a : A) : Async A := Settle (Fulfilled a).
Definition throw {A} (e : JsError) : Async A := Settle (Rejected e).
Definition await {A} (p : Settled A) : Async A := Settle p.
Definition fetch (url : string) (init : RequestInit) : Async Response :=
  AwaitFetch url init Settle.

Fixpoint bind {A B} (m : Async A) (f : A -> Async B) : Async B :=
  match m with
  | Settle (Fulfilled a) => f a
  | Settle (Rejected e) => Settle (Rejected e)
  | AwaitFetch url init k => AwaitFetch url init (fun o => bind (k o) f)
  end.

(** [try { m } catch (e) { h e }] *)
Fixpoint try_catch {A} (m : Async A) (h : JsError -> Async A) : Async A :=
  match m with
  | Settle (Fulfilled a) => Settle (Fulfilled a)
  | Settle (Rejected e) => h e
  | AwaitFetch url init k => AwaitFetch url init (fun o => try_catch (k o) h)
  end.

Notation "x <- m ;; k" := (bind m (fun x => k))
  (at level 100, m at next level, right associativity).

(** A network answers every request with a response or a transport failure
    (DNS, refused connection, CORS block), on which [fetch] rejects. *)
Definition Network : Type := string -> RequestInit -> Settled Response.

(** Running a computation against a network. *)
Fixpoint run {A} (net : Network) (m : Async A) : Settled A :=
  match m with
  | Settle o => o
  | AwaitFetch url init k => run net (k (net url init))
  end.

(** The requests a computation issues against a network, in order. *)
Fixpoint requests {A} (net : Network) (m : Async A) : list (string * RequestInit) :=
  match m with
  | Settle _ => []
  | AwaitFetch url init k => (url, init) :: requests net (k (net url init))
  end.

(** ** The client *)

Record AnythingLLMClient : Type := {
  baseUrl : string;
  apiKey : string
}.

(** [constructor(host, port, apiKey)] *)
Definition new_AnythingLLMClient (host port apiKey : string) : AnythingLLMClient :=
  let cleanHost := replace_trailing_slash host in
  {| baseUrl := cleanHost +:+ ":" +:+ port +:+ "/api/v1";
     apiKey := trim apiKey |}.

(** [private get headers()] *)
Definition client_headers (this : AnythingLLMClient) : list (string * string) :=
  [ ("Authorization", "Bearer " +:+ apiKey this);
    ("Content-Type", "application/json");
    ("Accept", "application/json") ].

Record AuthResult : Type := {
  authenticated : bool;
  error : option string
}.

Definition validateConnection (this : AnythingLLMClient) : Async AuthResult :=
  try_catch
    (response <- fetch (baseUrl this +:+ "/auth")
                   {| method := "GET"; headers := client_headers this; body := None |} ;;
     if status response =? 200 then
       ret {| authenticated := true; error := None |}
     else if (status response =? 401) || (status response =? 403) then
       ret {| authenticated := false; error := Some "Invalid API Key" |}
     else
       ret {| authenticated := false;
              error := Some ("Server returned " +:+ show (status response)
                             +:+ " " +:+ statusText response) |})
    (fun e =>
       ret {| authenticated := false;
              error := Some (str_or (err_message e) "Network Error") |}).

(** *** Workspace management *)

Definition getWorkspaces (this : AnythingLLMClient) : Async JsValue :=
  response <- fetch (baseUrl this +:+ "/workspaces")
                {| method := "GET"; headers := client_headers this; body := None |} ;;
  if negb (ok response) then throw (new_Error (statusText response)) else
  data <- await (json response) ;;
  workspaces <- await (get data "workspaces") ;;
  ret (or_else workspaces (JArray [])).

Definition getWorkspace (this : AnythingLLMClient) (slug : string) : Async JsValue :=
  response <- fetch (baseUrl this +:+ "/workspace/" +:+ slug)
                {| method := "GET"; headers := client_headers this; body := None |} ;;
  if negb (ok response) then
    throw (new_Error ("Workspace '" +:+ slug +:+ "' not found or error."))
  else
  data <- await (json response) ;;
  await (get data "workspace").

Definition createWorkspace (this : AnythingLLMClient) (name : string) : Async JsValue :=
  response <- fetch (baseUrl this +:+ "/workspace/new")
                {| method := "POST"; headers := client_headers this;
                   body := Some (JSON_stringify (JObject {[ "name" := JString name ]})) |} ;;
  if negb (ok response) then
    t <- await (text response) ;;
    throw (new_Error ("Failed to create workspace: " +:+ t))
  else
  data <- await (json response) ;;
  await (get data "workspace").

Record DeleteResult : Type := {
  success : bool;
  message : option string
}.

Definition deleteWorkspace (this : AnythingLLMClient) (slug : string) : Async DeleteResult :=
  response <- fetch (baseUrl this +:+ "/workspace/" +:+ slug)
                {| method := "DELETE"; headers := client_headers this; body := None |} ;;
  if negb (ok response) then
    t <- await (text response) ;;
    throw (new_Error ("Failed to delete workspace: " +:+ t))
  else
  ret {| success := true; message := None |}.

Record EmbeddingsResult : Type := {
  embeddings_success : bool;
  embeddings_response : JsValue
}.

Definition updateEmbeddings (this : AnythingLLMClient) (slug : string) : Async EmbeddingsResult :=
  response <- fetch (baseUrl this +:+ "/workspace/" +:+ slug +:+ "/update-embeddings")
                {| method := "POST"; headers := client_headers this; body := None |} ;;
  if negb (ok response) then
    t <- await (text response) ;;
    throw (new_Error ("Failed to update embeddings: " +:+ t))
  else
  data <- await (json response) ;;
  ret {| embeddings_success := true; embeddings_response := data |}.

(** *** Chat *)

Record ChatResult : Type := {
  textResponse : JsValue;
  sources : JsValue
}.

(** [mode] is [None] when the caller leaves the argument out; the default
    parameter value then applies. *)
Definition sendChat (this : AnythingLLMClient) (slug message : string)
    (mode : option string) : Async ChatResult :=
  let mode := default "chat" mode in
  response <- fetch (baseUrl this +:+ "/workspace/" +:+ slug +:+ "/chat")
                {| method := "POST"; headers := client_headers this;
                   body := Some (JSON_stringify
                                   (JObject {[ "message" := JString message;
                                               "mode" := JString mode ]})) |} ;;
  if negb (ok response) then
    t <- await (text response) ;;
    throw (new_Error ("Chat failed (" +:+ show (status response) +:+ "): " +:+ t))
  else
  data <- await (json response) ;;
  textResponse <- await (get data "textResponse") ;;
  sources <- await (get data "sources") ;;
  ret {| textResponse := textResponse; sources := or_else sources (JArray []) |}.

(** *** System / admin *)

Definition getUsers (this : AnythingLLMClient) : Async JsValue :=
  response <- fetch (baseUrl this +:+ "/system/users")
                {| method := "GET"; headers := client_headers this; body := None |} ;;
  if negb (ok response) then
    throw (new_Error ("Failed to fetch users (May require Admin privilege): "
                      +:+ statusText response))
  else
  data <- await (json response) ;;
  users <- await (get data "users") ;;
  ret (or_else users (JArray [])).

(** The public methods of the class with their arguments, indexed by what
    they resolve to. *)
Inductive Operation : Type -> Type :=
| ValidateConnection : Operation AuthResult
| GetWorkspaces : Operation JsValue
| GetWorkspace (slug : string) : Operation JsValue
| CreateWorkspace (name : string) : Operation JsValue
| DeleteWorkspace (slug : string) : Operation DeleteResult
| UpdateEmbeddings (slug : string) : Operation EmbeddingsResult
| SendChat (slug message : string) (mode : option string) : Operation ChatResult
| GetUsers : Operation JsValue.

Definition perform {A} (this : AnythingLLMClient) (op : Operation A) : Async A :=
  match op with
  | ValidateConnection => validateConnection this
  | GetWorkspaces => getWorkspaces this
  | GetWorkspace slug => getWorkspace this slug
  | CreateWorkspace name => createWorkspace this name
  | DeleteWorkspace slug => deleteWorkspace this slug
  | UpdateEmbeddings slug => updateEmbeddings this slug
  | SendChat slug message mode => sendChat this slug message mode
  | GetUsers => getUsers this
  end.

(** The members that the class itself gives an instance, as a property
    read [client[name]] finds them: the two fields and the [headers]
    accessor are not functions; a method is listed with its formal
    parameters in declaration order. What every object inherits
    ([constructor], [toString] and the like) is not listed. *)
Inductive Member : Type :=
| Field
| Accessor
| Method (formals : list string).

Definition AnythingLLMClient_members : list (string * Member) :=
  [ ("baseUrl", Field);
    ("apiKey", Field);
    ("headers", Accessor);
    ("validateConnection", Method []);
    ("getWorkspaces", Method []);
    ("getWorkspace", Method ["slug"]);
    ("createWorkspace", Method ["name"]);
    ("deleteWorkspace", Method ["slug"]);
    ("updateEmbeddings", Method ["slug"]);
    ("sendChat", Method ["slug"; "message"; "mode"]);
    ("getUsers", Method []) ].

Definition member (name : string) : option Member :=
  snd <$> List.find (fun m => String.eqb (fst m) name) AnythingLLMClient_members.

(** [typeof client[name] === 'function'], with the formals of the function. *)
Definition callable (name : string) : option (list string) :=
  match member name with
  | Some (Method formals) => Some formals
  | _ => None
  end.

(** ** The method registry *)

Inductive SDKParamType : Type := TString | TNumber | TBoolean | TSlug | TJson.

Record SDKMethodParam : Type := {
  param_name : string;
  param_type : SDKParamType;
  required : bool;
  param_description : option string;
  defaultValue : option JsValue      (* [None]: the field is absent *)
}.

Record SDKMethodDefinition : Type := {
  sdk_method : string;
  label : string;
  description : string;
  params : list SDKMethodParam
}.

Definition SDK_METHODS : list SDKMethodDefinition :=
  [ {| sdk_method := "getWorkspaces";
       label := "Get All Workspaces";
       description := "List all available workspaces in this instance.";
       params := [] |};
    {| sdk_method := "getWorkspace";
       label := "Get Workspace Details";
       description := "Get metadata about a specific workspace.";
       params :=
         [ {| param_name := "slug"; param_type := TSlug; required := true;
              param_description := Some "Workspace Slug (e.g. my-chat)";
              defaultValue := None |} ] |};
    {| sdk_method := "createWorkspace";
       label := "Create Workspace";
       description := "Create a new empty workspace.";
       params :=
         [ {| param_name := "name"; param_type := TString; required := true;
              param_description := Some "New Workspace Name";
              defaultValue := None |} ] |};
    {| sdk_method := "deleteWorkspace";
       label := "Delete Workspace";
       description := "Permanently delete a workspace.";
       params :=
         [ {| param_name := "slug"; param_type := TSlug; required := true;
              param_description := Some "Slug to delete";
              defaultValue := None |} ] |};
    {| sdk_method := "updateEmbeddings";
       label := "Update Embeddings";
       description := "Force a re-sync of the vector database for this workspace.";
       params :=
         [ {| param_name := "slug"; param_type := TSlug; required := true;
              param_description := Some "Target Workspace";
              defaultValue := None |} ] |};
    {| sdk_method := "sendChat";
       label := "Send Chat Message";
       description := "Send a prompt to a workspace.";
       params :=
         [ {| param_name := "slug"; param_type := TSlug; required := true;
              param_description := Some "Target Workspace";
              defaultValue := None |};
           {| param_name := "message"; param_type := TString; required := true;
              param_description := Some "Your prompt";
              defaultValue := None |};
           {| param_name := "mode"; param_type := TString; required := true;
              param_description :=
                Some (dquote +:+ "chat" +:+ dquote +:+ " or " +:+ dquote +:+ "query" +:+ dquote);
              defaultValue := Some (JString "chat") |} ] |};
    {| sdk_method := "getUsers";
       label := "Get Users (Admin)";
       description := "List all registered users.";
       params := [] |} ].

(** ** Pre-filling the arguments of the selected method ([App.tsx]) *)

Definition is_slug (t : SDKParamType) : bool :=
  match t with TSlug => true | _ => false end.

(** One round of the [forEach] body: the assignment to [initialArgs]. *)
Definition prefill_param (model : string) (initialArgs : gmap string JsValue)
    (param : SDKMethodParam) : gmap string JsValue :=
  if is_slug (param_type param) && truthy (JString model) then
    <[param_name param := JString model]> initialArgs
  else
    match defaultValue param with
    | Some v => <[param_name param := v]> initialArgs
    | None => <[param_name param := JString ""]> initialArgs
    end.

(** The object handed to [setMethodArgs] for a method definition;
    [model] is [config.model], which holds the selected workspace's slug. *)
Definition prefill (definition : SDKMethodDefinition) (model : string)
    : gmap string JsValue :=
  foldl (prefill_param model) ∅ (params definition).

(** The effect for a selected index; reading [params] of a missing entry
    throws, and nothing is set. *)
Definition prefill_effect (selectedMethodIdx : nat) (model : string)
    : option (gmap string JsValue) :=
  definition ← SDK_METHODS !! selectedMethodIdx;
  Some (prefill definition model).

(** [definition.params.map(p => methodArgs[p.name])]: the positional
    arguments of the reflective call. *)
Definition positional_args (definition : SDKMethodDefinition)
    (methodArgs : gmap string JsValue) : list JsValue :=
  map (fun p => default JUndefined (methodArgs !! param_name p)) (params definition).

(** ** Requests, endpoints and fixtures used by the statements *)

(** The request of a [GET] without a body. *)
Definition get_init (this : AnythingLLMClient) : RequestInit :=
  {| method := "GET"; headers := client_headers this; body := None |}.

(** Concrete clients, responses and failures used in the examples. *)
Module Fixtures.

Definition client : AnythingLLMClient :=
  new_AnythingLLMClient "http://localhost" "3001" "FNSXGP0-ABZMZRW-HNRGGHG-NXA90ZQ".

(** What [fetch] rejects with when the server cannot be reached. *)
Definition failed_to_fetch : JsError := TypeError "Failed to fetch".

Definition unreachable : Network := fun _ _ => Rejected failed_to_fetch.

(** A network that answers every request with the same response. *)
Definition always (response : Response) : Network := fun _ _ => Fulfilled response.

Definition empty_body : Settled JsValue :=
  Rejected {| err_name := "SyntaxError"; err_message := "Unexpected end of JSON input" |}.

Definition no_content : Response :=
  {| status := 204; statusText := "No Content";
     text := Fulfilled ""; json := empty_body |}.

Definition unauthorized : Response :=
  {| status := 401; statusText := "Unauthorized";
     text := Fulfilled "Unauthorized"; json := empty_body |}.

Definition forbidden : Response :=
  {| status := 403; statusText := "Forbidden";
     text := Fulfilled "Forbidden"; json := empty_body |}.

Definition bad_request : Response :=
  {| status := 400; statusText := "Bad Request";
     text := Fulfilled "Bad Request"; json := empty_body |}.

Definition server_error : Response :=
  {| status := 500; statusText := "Internal Server Error";
     text := Fulfilled "boom"; json := empty_body |}.

(** A 200 response whose body is the JSON text of [data]. *)
Definition ok_json (raw : string) (data : JsValue) : Response :=
  {| status := 200; statusText := "OK";
     text := Fulfilled raw; json := Fulfilled data |}.

End Fixtures.

(** What each operation makes of a transport failure [e] of its request. *)
Definition on_transport_failure {A} (op : Operation A) (e : JsError) : Settled A :=
  match op in Operation T return Settled T with
  | ValidateConnection =>
      Fulfilled {| authenticated := false;
                   error := Some (str_or (err_message e) "Network Error") |}
  | _ => Rejected e
  end.

Definition chat_url (this : AnythingLLMClient) (slug : string) : string :=
  baseUrl this +:+ "/workspace/" +:+ slug +:+ "/chat".

(** The object literal handed to [fetch] by [sendChat]. *)
Definition chat_init (this : AnythingLLMClient) (message : string)
    (mode : option string) : RequestInit :=
  {| method := "POST"; headers := client_headers this;
     body := Some (JSON_stringify
                     (JObject {[ "message" := JString message;
                                 "mode" := JString (default "chat" mode) ]})) |}.

Definition workspace_url (this : AnythingLLMClient) (slug : string) : string :=
  baseUrl this +:+ "/workspace/" +:+ slug.

Definition delete_init (this : AnythingLLMClient) : RequestInit :=
  {| method := "DELETE"; headers := client_headers this; body := None |}.

Module Examples.
Import Fixtures.

Definition workspace (id : positive) (name slug : string) : JsValue :=
  JObject {[ "id" := JNumber (S754_finite false id 0);
             "name" := JString name; "slug" := JString slug ]}.

Definition two_workspaces : list JsValue :=
  [ workspace 2 "Q1 Finance" "q1-finance"; workspace 1 "Mini" "mini" ].

Definition listing (workspaces : list JsValue) : Response :=
  ok_json "" (JObject {[ "workspaces" := JArray workspaces ]}).

End Examples.

(** How many slashes end a string. *)
Fixpoint trailing_slashes (s : string) : nat :=
  match s with
  | "" => 0%nat
  | String c rest =>
      let n := trailing_slashes rest in
      if (n =? String.length rest)%nat && Ascii.eqb c "/" then S n else n
  end.

(** White space only. *)
Fixpoint all_white (s : string) : bool :=
  match s with
  | "" => true
  | String c rest => is_white c && all_white rest
  end.

Definition starts_white (s : string) : bool :=
  match s with
  | "" => false
  | String c _ => is_white c
  end.

Fixpoint ends_white (s : string) : bool :=
  match s with
  | "" => false
  | String c "" => is_white c
  | String _ rest => ends_white rest
  end.

(** [t] is [s] without the white space at its two ends. *)
Definition trimmed_of (s t : string) : Prop :=
  exists before after,
    s = before +:+ t +:+ after /\
    all_white before = true /\ all_white after = true /\
    starts_white t = false /\ ends_white t = false.

(** The wire interface: HTTP method, path under the base URL and body of
    each operation. *)
Definition endpoint_method {A} (op : Operation A) : string :=
  match op with
  | ValidateConnection | GetWorkspaces | GetWorkspace _ | GetUsers => "GET"
  | CreateWorkspace _ | UpdateEmbeddings _ | SendChat _ _ _ => "POST"
  | DeleteWorkspace _ => "DELETE"
  end.

Definition endpoint_path {A} (op : Operation A) : string :=
  match op with
  | ValidateConnection => "/auth"
  | GetWorkspaces => "/workspaces"
  | GetWorkspace slug => "/workspace/" +:+ slug
  | CreateWorkspace _ => "/workspace/new"
  | DeleteWorkspace slug => "/workspace/" +:+ slug
  | UpdateEmbeddings slug => "/workspace/" +:+ slug +:+ "/update-embeddings"
  | SendChat slug _ _ => "/workspace/" +:+ slug +:+ "/chat"
  | GetUsers => "/system/users"
  end.

Definition endpoint_body {A} (op : Operation A) : option BodyInit :=
  match op with
  | CreateWorkspace name => Some (JSON_stringify (JObject {[ "name" := JString name ]}))
  | SendChat _ message mode =>
      Some (JSON_stringify (JObject {[ "message" := JString message;
                                       "mode" := JString (default "chat" mode) ]}))
  | _ => None
  end.

(** The value the effect assigns for one parameter. *)
Definition prefilled_value (model : string) (param : SDKMethodParam) : JsValue :=
  if is_slug (param_type param) && truthy (JString model) then JString model
  else default (JString "") (defaultValue param).

(** The [fetch] init of an operation, by the wire interface. *)
Definition endpoint_init {A} (this : AnythingLLMClient) (op : Operation A) : RequestInit :=
  {| method := endpoint_method op;
     headers := client_headers this;
     body := endpoint_body op |}.

(** The operations with a [try]/[catch] of their own. *)
Definition catches {A} (op : Operation A) : bool :=
  match op with
  | ValidateConnection => true
  | _ => false
  end.

(** The operations that parse the body of a successful response. *)
Definition parses_body {A} (op : Operation A) : bool :=
  match op with
  | ValidateConnection | DeleteWorkspace _ => false
  | _ => true
  end.

(** The operations that read a property of the parsed body. *)
Definition reads_field {A} (op : Operation A) : bool :=
  match op with
  | ValidateConnection | DeleteWorkspace _ | UpdateEmbeddings _ => false
  | _ => true
  end.

(** ** JavaScript coercions *)

(** [s.includes(pattern)] *)
Fixpoint includes (s pattern : string) : bool :=
  if String.prefix pattern s then true
  else match s with
       | "" => false
       | String _ rest => includes rest pattern
       end.

(** [items.join(",")] on items already rendered *)
Fixpoint join_comma (items : list string) : string :=
  match items with
  | [] => ""
  | [item] => item
  | item :: rest => item +:+ "," +:+ join_comma rest
  end.

(** [x > 0] on a double *)
Definition positive_number (x : spec_float) : bool :=
  match x with
  | S754_finite false _ _ | S754_infinity false => true
  | _ => false
  end.

(** Two conversions of the runtime are taken as they are: the decimal
    rendering of a double and the reading of a string as a number. *)
Section Coercions.
Variable Number_toString : spec_float -> string.
Variable StringToNumber : string -> spec_float.

(** ToString, as a template literal applies it. An array renders as its
    items joined by commas, [null] and [undefined] items as nothing; an
    object of a parsed body renders as [[object Object]]. *)
Fixpoint ToString (v : JsValue) : string :=
  match v with
  | JUndefined => "undefined"
  | JNull => "null"
  | JBool true => "true"
  | JBool false => "false"
  | JNumber x => Number_toString x
  | JString s => s
  | JArray items =>
      join_comma (map (fun item => match item with
                                   | JUndefined | JNull => ""
                                   | _ => ToString item
                                   end) items)
  | JObject _ => "[object Object]"
  end.

(** ToNumber *)
Definition ToNumber (v : JsValue) : spec_float :=
  match v with
  | JUndefined => S754_nan
  | JNull => S754_zero false
  | JBool true => S754_finite false 1 0
  | JBool false => S754_zero false
  | JNumber x => x
  | JString s => StringToNumber s
  | JArray _ | JObject _ => StringToNumber (ToString v)
  end.

(** [v.length > 0]: the read throws on [null] and [undefined]; an array
    and a string have their length; an object has its [length] field, if
    any; a boolean and a number have none, and [undefined > 0] is false. *)
Definition length_positive (v : JsValue) : Settled bool :=
  match v with
  | JUndefined =>
      Rejected (TypeError "Cannot read properties of undefined (reading 'length')")
  | JNull =>
      Rejected (TypeError "Cannot read properties of null (reading 'length')")
  | JBool _ | JNumber _ => Fulfilled false
  | JString s => Fulfilled (negb (String.eqb s ""))
  | JArray items => Fulfilled (match items with [] => false | _ => true end)
  | JObject fields =>
      Fulfilled (positive_number (ToNumber (default JUndefined (fields !! "length"))))
  end.

End Coercions.

(** ** Event handlers: state and exceptions over [Async] *)

(** A handler runs on the component's state; it may await requests, and it
    ends with a state and either a value or a thrown error. The state
    written before a throw stays written. *)
Definition Handler (S A : Type) : Type := S -> Async (S * Settled A).

Section HandlerMonad.
Context {S : Type}.

Definition hret {A} (a : A) : Handler S A := fun s => ret (s, Fulfilled a).

Definition hthrow {A} (e : JsError) : Handler S A := fun s => ret (s, Rejected e).

Definition hbind {A B} (m : Handler S A) (f : A -> Handler S B) : Handler S B :=
  fun s =>
    bind (m s) (fun sr =>
      match snd sr with
      | Fulfilled a => f a (fst sr)
      | Rejected e => ret (fst sr, Rejected e)
      end).

(** [try { m } catch (e) { h e }] *)
Definition htry {A} (m : Handler S A) (h : JsError -> Handler S A) : Handler S A :=
  fun s =>
    bind (m s) (fun sr =>
      match snd sr with
      | Fulfilled a => ret (fst sr, Fulfilled a)
      | Rejected e => h e (fst sr)
      end).

(** [try { m } finally { f }], for an [f] that does not throw or return. *)
Definition hfinally {A} (m : Handler S A) (f : S -> S) : Handler S A :=
  fun s => bind (m s) (fun sr => ret (f (fst sr), snd sr)).

(** A state update, [setX(...)]. *)
Definition modify (f : S -> S) : Handler S unit := fun s => ret (f s, Fulfilled tt).

(** A read of the state. *)
Definition gets {A} (f : S -> A) : Handler S A := fun s => ret (s, Fulfilled (f s)).

(** An awaited call that does not touch the state. *)
Definition hawait {A} (m : Async A) : Handler S A :=
  fun s =>
    try_catch (bind m (fun a => ret (s, Fulfilled a)))
              (fun e => ret (s, Rejected e)).

(** A synchronous step that may throw. *)
Definition hsettled {A} (p : Settled A) : Handler S A := fun s => ret (s, p).

End HandlerMonad.

Notation "x <~ m ;; k" := (hbind m (fun x => k))
  (at level 100, m at next level, right associativity).
Notation "m >> k" := (hbind m (fun _ => k))
  (at level 100, k at level 200, right associativity).

(** ** Types and constants of the application *)

Module Types.

Record AppConfig : Type := {
  provider : string;
  host : string;
  port : string;
  model : string;
  apiKey : option string       (* [None]: the field is absent *)
}.

(** The fields [generateResponse] fills in; [sources] and [id] stay absent. *)
Record LLMResponse : Type := {
  response : JsValue;
  created_at : JsValue;
  done : JsValue;
  total_duration : JsValue
}.

End Types.

Definition DEFAULT_PROVIDER : string := "anythingllm".
Definition DEFAULT_HOST : string := "http://localhost".
Definition DEFAULT_OLLAMA_PORT : string := "11434".
Definition DEFAULT_ANYTHINGLLM_PORT : string := "3001".
Definition DEFAULT_MODEL : string := "mini".
Definition DEFAULT_API_KEY : string := "FNSXGP0-ABZMZRW-HNRGGHG-NXA90ZQ".

(** ** The Ollama service *)

Module ollamaService.

Record CheckResult : Type := {
  success : bool;
  error : option string
}.

Definition cors_check_message : string :=
  "Network Error. If Ollama is running, this is a CORS issue. Please restart Ollama with OLLAMA_ORIGINS="
  +:+ dquote +:+ "*" +:+ dquote.

Definition cors_generate_message : string :=
  "Network/CORS Error. Please restart Ollama with environment variable OLLAMA_ORIGINS="
  +:+ dquote +:+ "*" +:+ dquote.

Definition checkConnection (config : Types.AppConfig) : Async CheckResult :=
  let baseUrl := Types.host config +:+ ":" +:+ Types.port config in
  try_catch
    (response <- fetch baseUrl {| method := "GET"; headers := []; body := None |} ;;
     if negb (ok response) then
       ret {| success := false;
              error := Some ("Server returned " +:+ show (status response)
                             +:+ " " +:+ statusText response) |}
     else
       ret {| success := true; error := None |})
    (fun e =>
       let msg := str_or (err_message e) "Unknown error" in
       if includes msg "Failed to fetch" || includes msg "NetworkError" then
         ret {| success := false; error := Some cors_check_message |}
       else
         ret {| success := false; error := Some msg |}).

(** The call to [console.error] in the catch is left out. *)
Definition generateResponse (config : Types.AppConfig) (prompt : string)
    : Async Types.LLMResponse :=
  let baseUrl := Types.host config +:+ ":" +:+ Types.port config in
  let url := baseUrl +:+ "/api/generate" in
  try_catch
    (response <- fetch url
                   {| method := "POST";
                      headers := [("Content-Type", "application/json")];
                      body := Some (JSON_stringify
                                      (JObject {[ "model" := JString (Types.model config);
                                                  "prompt" := JString prompt;
                                                  "stream" := JBool false ]})) |} ;;
     if negb (ok response) then
       throw (new_Error ("Ollama API Error: " +:+ show (status response)
                         +:+ " " +:+ statusText response))
     else
     data <- await (json response) ;;
     response_ <- await (get data "response") ;;
     created_at <- await (get data "created_at") ;;
     done <- await (get data "done") ;;
     total_duration <- await (get data "total_duration") ;;
     ret {| Types.response := response_;
            Types.created_at := created_at;
            Types.done := done;
            Types.total_duration := total_duration |})
    (fun error =>
       if negb (String.eqb (err_message error) "")
          && (includes (err_message error) "Failed to fetch"
              || includes (err_message error) "NetworkError")
       then throw (new_Error cors_generate_message)
       else throw error).

End ollamaService.

(** ** Reflective calls of the client *)

(** The results of the client's methods as the objects they are. *)
Definition AuthResult_object (result : AuthResult) : JsValue :=
  match error result with
  | Some msg =>
      JObject {[ "authenticated" := JBool (authenticated result); "error" := JString msg ]}
  | None => JObject {[ "authenticated" := JBool (authenticated result) ]}
  end.

Definition DeleteResult_object (result : DeleteResult) : JsValue :=
  match message result with
  | Some msg => JObject {[ "success" := JBool (success result); "message" := JString msg ]}
  | None => JObject {[ "success" := JBool (success result) ]}
  end.

Definition EmbeddingsResult_object (result : EmbeddingsResult) : JsValue :=
  JObject {[ "success" := JBool (embeddings_success result);
             "response" := embeddings_response result ]}.

Definition ChatResult_object (result : ChatResult) : JsValue :=
  JObject {[ "textResponse" := textResponse result; "sources" := sources result ]}.

(** [m.then(f)] *)
Definition then_ {A B} (m : Async A) (f : A -> B) : Async B :=
  x <- m ;; ret (f x).

(** [createWorkspace] and [sendChat] on arguments of any type, as a
    reflective call can pass them: [name], [message] and [mode] go into the
    body as they are, and the default of [mode] applies to [undefined]. *)
Definition createWorkspace_any (this : AnythingLLMClient) (name : JsValue) : Async JsValue :=
  response <- fetch (baseUrl this +:+ "/workspace/new")
                {| method := "POST"; headers := client_headers this;
                   body := Some (JSON_stringify (JObject {[ "name" := name ]})) |} ;;
  if negb (ok response) then
    t <- await (text response) ;;
    throw (new_Error ("Failed to create workspace: " +:+ t))
  else
  data <- await (json response) ;;
  await (get data "workspace").

Definition sendChat_any (this : AnythingLLMClient) (slug : string)
    (message mode : JsValue) : Async ChatResult :=
  let mode := match mode with JUndefined => JString "chat" | _ => mode end in
  response <- fetch (baseUrl this +:+ "/workspace/" +:+ slug +:+ "/chat")
                {| method := "POST"; headers := client_headers this;
                   body := Some (JSON_stringify
                                   (JObject {[ "message" := message; "mode" := mode ]})) |} ;;
  if negb (ok response) then
    t <- await (text response) ;;
    throw (new_Error ("Chat failed (" +:+ show (status response) +:+ "): " +:+ t))
  else
  data <- await (json response) ;;
  textResponse <- await (get data "textResponse") ;;
  sources <- await (get data "sources") ;;
  ret {| textResponse := textResponse; sources := or_else sources (JArray []) |}.

Section Reflection.
Variable Number_toString : spec_float -> string.

(** The [i]-th positional argument; a missing one is [undefined]. *)
Definition arg (args : list JsValue) (i : nat) : JsValue :=
  default JUndefined (args !! i).

(** [fn.apply(client, args)] for [fn = client[name]], a method of the
    class. A slug only ever appears inside template literals, so it counts
    through its rendering as a string. *)
Definition apply_method (this : AnythingLLMClient) (name : string)
    (args : list JsValue) : Async JsValue :=
  let slug := ToString Number_toString (arg args 0) in
  if String.eqb name "validateConnection" then
    then_ (validateConnection this) AuthResult_object
  else if String.eqb name "getWorkspaces" then getWorkspaces this
  else if String.eqb name "getWorkspace" then getWorkspace this slug
  else if String.eqb name "createWorkspace" then createWorkspace_any this (arg args 0)
  else if String.eqb name "deleteWorkspace" then
    then_ (deleteWorkspace this slug) DeleteResult_object
  else if String.eqb name "updateEmbeddings" then
    then_ (updateEmbeddings this slug) EmbeddingsResult_object
  else if String.eqb name "sendChat" then
    then_ (sendChat_any this slug (arg args 1) (arg args 2)) ChatResult_object
  else if String.eqb name "getUsers" then getUsers this
  else throw (TypeError "fn.apply is not a function").

End Reflection.

(** ** The application component ([App.tsx]) *)

Module App.

(** What [apiResult] holds: a text, or [JSON.stringify(v, null, 2)] for a
    value [v], which is kept as the value. *)
Inductive Display : Type :=
| Text (s : string)
| JSON_pretty (v : JsValue).

(** The state of the component, one field for each [useState]. *)
Record State : Type := {
  config : Types.AppConfig;
  status : string;                        (* 'idle', 'checking', 'connected', 'error' *)
  response : JsValue;
  isLoading : bool;
  error : option string;
  selectedPromptId : option string;
  showApiKey : bool;
  isSettingsOpen : bool;
  availableWorkspaces : JsValue;
  selectedMethodIdx : nat;
  methodArgs : gmap string JsValue;
  apiResult : option Display
}.

Definition initial : State :=
  {| config := {| Types.provider := DEFAULT_PROVIDER;
                  Types.host := DEFAULT_HOST;
                  Types.port := DEFAULT_ANYTHINGLLM_PORT;
                  Types.model := DEFAULT_MODEL;
                  Types.apiKey := Some DEFAULT_API_KEY |};
     status := "idle";
     response := JNull;
     isLoading := false;
     error := None;
     selectedPromptId := None;
     showApiKey := false;
     isSettingsOpen := true;
     availableWorkspaces := JArray [];
     selectedMethodIdx := 0;
     methodArgs := ∅;
     apiResult := None |}.

(** The setters. *)
Definition setConfig (f : Types.AppConfig -> Types.AppConfig) (s : State) : State :=
  let '(Build_State c st r l e p k o w i a x) := s in Build_State (f c) st r l e p k o w i a x.
Definition setStatus (v : string) (s : State) : State :=
  let '(Build_State c st r l e p k o w i a x) := s in Build_State c v r l e p k o w i a x.
Definition setResponse (v : JsValue) (s : State) : State :=
  let '(Build_State c st r l e p k o w i a x) := s in Build_State c st v l e p k o w i a x.
Definition setIsLoading (v : bool) (s : State) : State :=
  let '(Build_State c st r l e p k o w i a x) := s in Build_State c st r v e p k o w i a x.
Definition setError (v : option string) (s : State) : State :=
  let '(Build_State c st r l e p k o w i a x) := s in Build_State c st r l v p k o w i a x.
Definition setSelectedPromptId (v : option string) (s : State) : State :=
  let '(Build_State c st r l e p k o w i a x) := s in Build_State c st r l e v k o w i a x.
Definition setShowApiKey (v : bool) (s : State) : State :=
  let '(Build_State c st r l e p k o w i a x) := s in Build_State c st r l e p v o w i a x.
Definition setIsSettingsOpen (v : bool) (s : State) : State :=
  let '(Build_State c st r l e p k o w i a x) := s in Build_State c st r l e p k v w i a x.
Definition setAvailableWorkspaces (v : JsValue) (s : State) : State :=
  let '(Build_State c st r l e p k o w i a x) := s in Build_State c st r l e p k o v i a x.
Definition setSelectedMethodIdx (v : nat) (s : State) : State :=
  let '(Build_State c st r l e p k o w i a x) := s in Build_State c st r l e p k o w v a x.
Definition setMethodArgs (f : gmap string JsValue -> gmap string JsValue) (s : State) : State :=
  let '(Build_State c st r l e p k o w i a x) := s in Build_State c st r l e p k o w i (f a) x.
Definition setApiResult (v : option Display) (s : State) : State :=
  let '(Build_State c st r l e p k o w i a x) := s in Build_State c st r l e p k o w i a v.

(** The effect on [config.provider]: a change of provider puts the port
    and the model back to the provider's defaults. *)
Definition provider_effect (s : State) : State :=
  let s := setConfig (fun prev =>
             {| Types.provider := Types.provider prev;
                Types.host := Types.host prev;
                Types.port := if String.eqb (Types.provider prev) "ollama"
                              then DEFAULT_OLLAMA_PORT else DEFAULT_ANYTHINGLLM_PORT;
                Types.model := if String.eqb (Types.provider prev) "ollama"
                               then "llama3" else DEFAULT_MODEL;
                Types.apiKey := Types.apiKey prev |}) s in
  let s := setStatus "idle" s in
  let s := setError None s in
  let s := setAvailableWorkspaces (JArray []) s in
  setApiResult None s.

(** The effect on [selectedMethodIdx] and [config.model]; [None] when the
    read of [params] throws. *)
Definition prefill_state (s : State) : option State :=
  initialArgs ← prefill_effect (selectedMethodIdx s) (Types.model (config s));
  Some (setApiResult None (setMethodArgs (fun _ => initialArgs) s)).

(** [{...prev, [name]: value}]; a name that is no field of the
    configuration adds a property that nothing reads. *)
Definition assign (prev : Types.AppConfig) (name value : string) : Types.AppConfig :=
  if String.eqb name "provider" then
    {| Types.provider := value; Types.host := Types.host prev; Types.port := Types.port prev;
       Types.model := Types.model prev; Types.apiKey := Types.apiKey prev |}
  else if String.eqb name "host" then
    {| Types.provider := Types.provider prev; Types.host := value; Types.port := Types.port prev;
       Types.model := Types.model prev; Types.apiKey := Types.apiKey prev |}
  else if String.eqb name "port" then
    {| Types.provider := Types.provider prev; Types.host := Types.host prev; Types.port := value;
       Types.model := Types.model prev; Types.apiKey := Types.apiKey prev |}
  else if String.eqb name "model" then
    {| Types.provider := Types.provider prev; Types.host := Types.host prev;
       Types.port := Types.port prev; Types.model := value; Types.apiKey := Types.apiKey prev |}
  else if String.eqb name "apiKey" then
    {| Types.provider := Types.provider prev; Types.host := Types.host prev;
       Types.port := Types.port prev; Types.model := Types.model prev;
       Types.apiKey := Some value |}
  else prev.

(** [handleConfigChange], on the name and the value of the input. *)
Definition handleConfigChange (name value : string) (s : State) : State :=
  let s := setConfig (fun prev => assign prev name value) s in
  let s := setStatus "idle" s in
  if String.eqb name "apiKey" || String.eqb name "model" then setError None s else s.

Definition selectWorkspace (slug : string) (s : State) : State :=
  setConfig (fun prev => assign prev "model" slug) s.

(** The argument inputs of the playground and the button beside a slug. *)
Definition edit_argument (name value : string) (s : State) : State :=
  setMethodArgs (fun prev => <[name := JString value]> prev) s.

Definition use_current_workspace (name : string) (s : State) : State :=
  setMethodArgs (fun prev => <[name := JString (Types.model (config s))]> prev) s.

(** [new AnythingLLMClient(config.host, config.port, config.apiKey || '')] *)
Definition client_of (c : Types.AppConfig) : AnythingLLMClient :=
  new_AnythingLLMClient (Types.host c) (Types.port c)
    (match Types.apiKey c with
     | Some key => str_or key ""
     | None => ""
     end).

(** [fetchWorkspaces(client?)]; a failure is logged to the console and
    goes no further. *)
Definition fetchWorkspaces (client : option AnythingLLMClient) : Handler State unit :=
  c <~ gets config ;;
  htry
    (let sdk := default (client_of c) client in
     workspaces <~ hawait (getWorkspaces sdk) ;;
     modify (setAvailableWorkspaces workspaces))
    (fun _ => hret tt).

(** [checkConnection]. The call of [fetchWorkspaces] is not awaited: its
    request goes out at once and its update of the list lands when the
    answer is there; the state given here is the one after that. *)
Definition checkConnection : Handler State unit :=
  c <~ gets config ;;
  modify (setStatus "checking") >>
  modify (setError None) >>
  htry
    (if String.eqb (Types.provider c) "ollama" then
       result <~ hawait (ollamaService.checkConnection c) ;;
       if ollamaService.success result then
         modify (setStatus "connected") >>
         modify (setIsSettingsOpen false)
       else
         hthrow (new_Error (default "" (ollamaService.error result)))
     else
       let client := client_of c in
       result <~ hawait (validateConnection client) ;;
       let '(Build_AuthResult authenticated error) := result in
       if authenticated then
         modify (setStatus "connected") >>
         fetchWorkspaces (Some client) >>
         modify (setIsSettingsOpen false)
       else
         hthrow (new_Error (default "" error)))
    (fun err =>
       modify (setStatus "error") >>
       modify (setError (Some (str_or (err_message err) "Connection failed")))).

Section Runtime.
Variable Number_toString : spec_float -> string.
Variable StringToNumber : string -> spec_float.

(** [!config.apiKey?.trim()] *)
Definition key_missing (c : Types.AppConfig) : bool :=
  match Types.apiKey c with
  | Some key => String.eqb (trim key) ""
  | None => true
  end.

Definition handlePromptClick (promptId promptText : string) : Handler State unit :=
  c <~ gets config ;;
  st <~ gets status ;;
  if String.eqb st "error" then
    modify (setError (Some "Please fix connection settings first."))
  else if String.eqb (Types.provider c) "anythingllm" && key_missing c then
    modify (setError (Some "API Key is required for AnythingLLM.")) >>
    modify (setIsSettingsOpen true)
  else
    modify (setSelectedPromptId (Some promptId)) >>
    modify (setIsLoading true) >>
    modify (setResponse JNull) >>
    modify (setError None) >>
    modify (setApiResult None) >>
    hfinally
      (htry
         ((if String.eqb (Types.provider c) "ollama" then
             result <~ hawait (ollamaService.generateResponse c promptText) ;;
             modify (setResponse (Types.response result))
           else
             let client := client_of c in
             result <~ hawait (sendChat client (Types.model c) promptText None) ;;
             modify (setResponse (textResponse result)) >>
             some <~ hsettled (length_positive Number_toString StringToNumber
                                 (sources result)) ;;
             if some then
               modify (setApiResult
                         (Some (JSON_pretty (JObject {[ "sources" := sources result ]}))))
             else hret tt) >>
          modify (setStatus "connected"))
         (fun err =>
            modify (setStatus "error") >>
            modify (setError (Some ("Failed to generate response. " +:+ err_message err)))))
      (setIsLoading false).

Definition executeApiMethod : Handler State unit :=
  s <~ gets id ;;
  let definition := SDK_METHODS !! selectedMethodIdx s in
  let client := client_of (config s) in
  modify (setApiResult (Some (Text "Executing..."))) >>
  htry
    (match definition with
     | None =>
         hthrow (TypeError "Cannot read properties of undefined (reading 'method')")
     | Some definition =>
         match callable (sdk_method definition) with
         | None => hthrow (new_Error "Method not implemented in SDK")
         | Some _ =>
             let args := positional_args definition (methodArgs s) in
             result <~ hawait (apply_method Number_toString client
                                 (sdk_method definition) args) ;;
             modify (setApiResult (Some (JSON_pretty result))) >>
             if includes (sdk_method definition) "Workspace" then
               fetchWorkspaces (Some client)
             else hret tt
         end
     end)
    (fun e => modify (setApiResult (Some (Text ("Error: " +:+ err_message e))))).

End Runtime.

End App.

(** The address both functions of the Ollama service start from. *)
Definition ollama_url (config : Types.AppConfig) : string :=
  Types.host config +:+ ":" +:+ Types.port config.

(** The object literal handed to [fetch] by [generateResponse]. *)
Definition generate_init (config : Types.AppConfig) (prompt : string) : RequestInit :=
  {| method := "POST";
     headers := [("Content-Type", "application/json")];
     body := Some (JSON_stringify
                     (JObject {[ "model" := JString (Types.model config);
                                 "prompt" := JString prompt;
                                 "stream" := JBool false ]})) |}.

(** What the catch of [generateResponse] rethrows. *)
Definition generate_rethrow (e : JsError) : JsError :=
  if negb (String.eqb (err_message e) "")
     && (includes (err_message e) "Failed to fetch"
         || includes (err_message e) "NetworkError")
  then new_Error ollamaService.cors_generate_message
  else e.

(** The two guards of [handlePromptClick]. *)
Definition prompt_refused (s : App.State) : bool :=
  String.eqb (App.status s) "error"
  || String.eqb (Types.provider (App.config s)) "anythingllm"
     && App.key_missing (App.config s).

(** A call of a method with its arguments taken by parameter name. *)
Definition call_by_name (this : AnythingLLMClient) (name : string)
    (value : string -> string) : Async JsValue :=
  if String.eqb name "validateConnection" then
    then_ (validateConnection this) AuthResult_object
  else if String.eqb name "getWorkspaces" then getWorkspaces this
  else if String.eqb name "getWorkspace" then getWorkspace this (value "slug")
  else if String.eqb name "createWorkspace" then createWorkspace this (value "name")
  else if String.eqb name "deleteWorkspace" then
    then_ (deleteWorkspace this (value "slug")) DeleteResult_object
  else if String.eqb name "updateEmbeddings" then
    then_ (updateEmbeddings this (value "slug")) EmbeddingsResult_object
  else if String.eqb name "sendChat" then
    then_ (sendChat this (value "slug") (value "message") (Some (value "mode")))
          ChatResult_object
  else if String.eqb name "getUsers" then getUsers this
  else throw (TypeError "fn.apply is not a function").

(** Every bound value is a string. *)
Definition strings_only (methodArgs : gmap string JsValue) : Prop :=
  forall key v, methodArgs !! key = Some v -> exists text, v = JString text.

(** [useEffect(effect, deps)] after a render: the effect runs when a
    dependency differs from the render before. *)
Definition use_effect {D} `{EqDecision D} (deps : App.State -> D)
    (effect : App.State -> option App.State) (prev next : App.State)
    : option App.State :=
  if decide (deps prev = deps next) then Some next else effect next.

(** The dependencies of the pre-fill effect. *)
Definition prefill_deps (s : App.State) : nat * string :=
  (App.selectedMethodIdx s, Types.model (App.config s)).

(** The dependency of the effect on the provider. *)
Definition provider_deps (s : App.State) : string := Types.provider (App.config s).

(** * Properties *)

(** ** Running computations *)

Section Running.
Context {A B : Type} (net : Network).

Lemma run_bind (m : Async A) (f : A -> Async B) :
  run net (bind m f) =
  match run net m with
  | Fulfilled a => run net (f a)
  | Rejected e => Rejected e
  end.
Proof.
  induction m as [[a | e] | url init k IH]; simpl; auto.
Qed.

Lemma requests_bind (m : Async A) (f : A -> Async B) :
  requests net (bind m f) =
  (requests net m ++
   match run net m with
   | Fulfilled a => requests net (f a)
   | Rejected _ => []
   end)%list.
Proof.
  induction m as [[a | e] | url init k IH]; simpl; auto.
  now rewrite IH.
Qed.

Lemma run_try_catch (m : Async A) (h : JsError -> Async A) :
  run net (try_catch m h) =
  match run net m with
  | Fulfilled a => Fulfilled a
  | Rejected e => run net (h e)
  end.
Proof.
  induction m as [[a | e] | url init k IH]; simpl; auto.
Qed.

Lemma requests_try_catch (m : Async A) (h : JsError -> Async A) :
  requests net (try_catch m h) =
  (requests net m ++
   match run net m with
   | Fulfilled _ => []
   | Rejected e => requests net (h e)
   end)%list.
Proof.
  induction m as [[a | e] | url init k IH]; simpl; auto.
  now rewrite IH.
Qed.

Lemma run_fetch (url : string) (init : RequestInit) :
  run net (fetch url init) = net url init.
Proof. reflexivity. Qed.

Lemma requests_fetch (url : string) (init : RequestInit) :
  requests net (fetch url init) = [(url, init)].
Proof. reflexivity. Qed.
End Running.

(** An awaited settled promise issues nothing and runs to itself. *)
Lemma run_await {A} (net : Network) (p : Settled A) : run net (await p) = p.
Proof. reflexivity. Qed.

Create Rewrite HintDb async.
#[local] Hint Rewrite @run_bind @run_try_catch @run_fetch @run_await
  @requests_bind @requests_try_catch @requests_fetch : async.

(** Push [run] and [requests] through the binds, catches and fetches of a
    method body. *)
Ltac step_async :=
  autorewrite with async; simpl.

(** ** validateConnection *)

Lemma str_or_nonempty (s d : string) : d <> "" -> str_or s d <> "".
Proof. destruct s; simpl; [auto | discriminate]. Qed.

(** What [validateConnection] makes of the network's answer. *)
Lemma validateConnection_run (this : AnythingLLMClient) (net : Network) :
  run net (validateConnection this) =
  match net (baseUrl this +:+ "/auth") (get_init this) with
  | Fulfilled response =>
      if status response =? 200 then
        Fulfilled {| authenticated := true; error := None |}
      else if (status response =? 401) || (status response =? 403) then
        Fulfilled {| authenticated := false; error := Some "Invalid API Key" |}
      else
        Fulfilled {| authenticated := false;
                     error := Some ("Server returned " +:+ show (status response)
                                    +:+ " " +:+ statusText response) |}
  | Rejected e =>
      Fulfilled {| authenticated := false;
                   error := Some (str_or (err_message e) "Network Error") |}
  end.
Proof.
  unfold validateConnection, get_init. step_async.
  destruct (net _ _) as [response | e]; simpl; auto.
  destruct (status response =? 200); simpl; auto.
  destruct ((status response =? 401) || (status response =? 403)); auto.
Qed.

(** Case analysis on what the network answered, for goals that are
    conjunctions of implications over the answer. *)
Ltac settle_cases :=
  repeat match goal with
    | |- _ /\ _ => split
    | |- _ <-> _ => split
    | |- forall _, _ => intro
    | H : Fulfilled _ = Fulfilled _ |- _ => injection H as <-
    | H : Rejected _ = Rejected _ |- _ => injection H as <-
    | H : ex _ |- _ => destruct H
    | H : _ /\ _ |- _ => destruct H
    | H : _ \/ _ |- _ => destruct H
    end;
  simpl in *; try congruence; eauto.

(** C1, as amended: [validateConnection] never throws. Whatever the network
    answers to the GET /auth request, it returns an [AuthResult]; the
    result is authenticated exactly when a response with status 200
    arrived. In every other case (a transport failure, 401 or 403, any
    other status, the other 2xx among them) it is not authenticated and
    carries a non-empty error string: the failure's message or
    'Network Error', 'Invalid API Key' for 401 and 403, and otherwise a text
    with the status code and the status text. *)
Theorem validateConnection_never_throws (this : AnythingLLMClient) (net : Network) :
  let answer := net (baseUrl this +:+ "/auth") (get_init this) in
  exists res : AuthResult,
    run net (validateConnection this) = Fulfilled res /\
    (authenticated res = true <->
       exists response, answer = Fulfilled response /\ status response = 200) /\
    (authenticated res = true -> error res = None) /\
    (authenticated res = false -> exists msg, error res = Some msg /\ msg <> "") /\
    (forall e, answer = Rejected e ->
       authenticated res = false /\
       error res = Some (str_or (err_message e) "Network Error")) /\
    (forall response, answer = Fulfilled response ->
       status response = 401 \/ status response = 403 ->
       authenticated res = false /\ error res = Some "Invalid API Key") /\
    (forall response, answer = Fulfilled response ->
       status response <> 200 -> status response <> 401 -> status response <> 403 ->
       authenticated res = false /\
       error res = Some ("Server returned " +:+ show (status response)
                         +:+ " " +:+ statusText response)).
Proof.
  intros answer. rewrite validateConnection_run. fold answer.
  destruct answer as [response | e].
  - destruct (N.eqb_spec (status response) 200) as [H200 | H200];
      [| destruct (N.eqb_spec (status response) 401) as [H401 | H401];
         [| destruct (N.eqb_spec (status response) 403) as [H403 | H403]]];
      simpl; (eexists; split; [reflexivity |]); simpl; settle_cases.
  - eexists; split; [reflexivity |]. simpl. settle_cases.
    eexists; split; [reflexivity |]. now apply str_or_nonempty.
Qed.

Lemma validateConnection_never_throws_200 :
  exists res : AuthResult,
    run (Fixtures.always (Fixtures.ok_json "" JNull)) (validateConnection Fixtures.client)
      = Fulfilled res /\
    authenticated res = true /\ error res = None.
Proof.
  destruct (validateConnection_never_throws Fixtures.client
              (Fixtures.always (Fixtures.ok_json "" JNull)))
    as (res & Hrun & Hauth & Hnone & _).
  assert (Htrue : authenticated res = true).
  { apply Hauth. eexists. split; reflexivity. }
  exists res. split; [exact Hrun |]. split; [exact Htrue | exact (Hnone Htrue)].
Defined.

(** C1, counterexample: 204 No Content is a 2xx response, and
    [validateConnection] answers it with [authenticated = false]. *)
Lemma validateConnection_204_unauthenticated :
  ok Fixtures.no_content = true /\
  run (Fixtures.always Fixtures.no_content) (validateConnection Fixtures.client) =
  Fulfilled {| authenticated := false;
               error := Some "Server returned 204 No Content" |}.
Proof. split; reflexivity. Qed.

(** ** Transport failures *)

(** C2, as amended: only [validateConnection] catches a transport failure,
    and it returns the record it also returns for HTTP failures, with the
    failure's message (or 'Network Error' when that is empty) as error. No
    other operation catches it: the promise rejects with the very error
    [fetch] rejected with, unchanged. *)
Theorem transport_failure_outcome {A} (this : AnythingLLMClient)
    (op : Operation A) (e : JsError) :
  run (fun _ _ => Rejected e) (perform this op) = on_transport_failure op e.
Proof.
  destruct op; reflexivity.
Qed.

(** C2, counterexample. With the server unreachable, [getWorkspaces] and
    [sendChat] reject with the TypeError of [fetch] itself: the client
    caught nothing and its message holds no guidance. [validateConnection]
    does catch, but a transport failure and an HTTP 401 can come out as the
    same record, so the two are not told apart by kind. *)
Lemma transport_failure_not_typed :
  run Fixtures.unreachable (getWorkspaces Fixtures.client)
    = Rejected (TypeError "Failed to fetch") /\
  run Fixtures.unreachable (sendChat Fixtures.client "mini" "hi" None)
    = Rejected (TypeError "Failed to fetch") /\
  run (fun _ _ => Rejected (TypeError "Invalid API Key")) (validateConnection Fixtures.client)
    = run (Fixtures.always Fixtures.unauthorized) (validateConnection Fixtures.client).
Proof. repeat split. Qed.

(** ** The registry against the class *)

(** C3: every descriptor of [SDK_METHODS] names a method of
    [AnythingLLMClient] (the property read yields a function), and the
    names of its declared parameters, in order, are the formal parameters
    of that method, in order; so the argument list of the reflective call
    holds, at each position, the value bound to the name of the formal
    parameter at that position. *)
Theorem registry_methods_resolve (i : nat) (definition : SDKMethodDefinition) :
  SDK_METHODS !! i = Some definition ->
  exists formals : list string,
    callable (sdk_method definition) = Some formals /\
    map param_name (params definition) = formals /\
    forall methodArgs : gmap string JsValue,
      positional_args definition methodArgs =
      map (fun formal => default JUndefined (methodArgs !! formal)) formals.
Proof.
  intros Hi. exists (map param_name (params definition)).
  split; [| split; [reflexivity |]].
  - do 7 (destruct i as [| i]; [injection Hi as <-; reflexivity |]).
    discriminate Hi.
  - intros methodArgs. unfold positional_args. now rewrite map_map.
Qed.

Lemma registry_methods_resolve_sendChat :
  exists formals : list string,
    callable "sendChat" = Some formals /\
    ["slug"; "message"; "mode"] = formals /\
    forall methodArgs : gmap string JsValue,
      [ default JUndefined (methodArgs !! "slug");
        default JUndefined (methodArgs !! "message");
        default JUndefined (methodArgs !! "mode") ] =
      map (fun formal => default JUndefined (methodArgs !! formal)) formals.
Proof.
  exact (registry_methods_resolve 5 _ eq_refl).
Defined.

(** Names that are no method do not resolve: a field, the accessor, and a
    name the class does not have. *)
Example callable_rejects :
  callable "apiKey" = None /\ callable "headers" = None /\ callable "dropWorkspace" = None.
Proof. repeat split. Qed.

(** ** sendChat *)

Lemma sendChat_requests (this : AnythingLLMClient) (slug message : string)
    (mode : option string) (net : Network) :
  requests net (sendChat this slug message mode) =
  [ (chat_url this slug, chat_init this message mode) ].
Proof.
  unfold sendChat, chat_url, chat_init. step_async.
  destruct (net _ _) as [response | e]; simpl; [| reflexivity].
  destruct (ok response); simpl; step_async.
  - destruct (json response) as [data | e]; simpl; [| reflexivity].
    step_async. destruct (get data "textResponse"); simpl; [| reflexivity].
    step_async. destruct (get data "sources"); reflexivity.
  - destruct (text response); reflexivity.
Qed.

(** C4: [sendChat] issues one request, a POST to the chat path of the
    workspace, whose JSON body holds [message] and a [mode] field equal to
    the mode passed ('chat', 'query', or any other string), and equal to
    'chat' when the argument is left out. On a response outside 200-299 it
    throws an Error whose message holds the status code and the text of the
    response body. *)
Theorem sendChat_contract (this : AnythingLLMClient) (slug message : string)
    (mode : option string) (net : Network) :
  let init := chat_init this message mode in
  requests net (sendChat this slug message mode) = [(chat_url this slug, init)] /\
  method init = "POST" /\
  (exists fields : gmap string JsValue,
     body init = Some (JSON_stringify (JObject fields)) /\
     fields !! "message" = Some (JString message) /\
     fields !! "mode" =
       Some (JString match mode with Some m => m | None => "chat" end)) /\
  (forall response t,
     net (chat_url this slug) init = Fulfilled response ->
     ok response = false ->
     text response = Fulfilled t ->
     run net (sendChat this slug message mode) =
     Rejected (new_Error ("Chat failed (" +:+ show (status response) +:+ "): " +:+ t))).
Proof.
  intros init. split; [apply sendChat_requests |]. split; [reflexivity |]. split.
  - eexists. split; [reflexivity |]. split; destruct mode; reflexivity.
  - intros response t Hanswer Hok Htext.
    unfold sendChat. step_async. fold (chat_url this slug) (chat_init this message mode).
    fold init. rewrite Hanswer. simpl. rewrite Hok. simpl. step_async.
    rewrite Htext. reflexivity.
Qed.

(** In query mode against a server that answers 500 with body 'boom'. *)
Lemma sendChat_contract_query :
  run (Fixtures.always Fixtures.server_error)
      (sendChat Fixtures.client "mini" "hi" (Some "query")) =
  Rejected (new_Error "Chat failed (500): boom").
Proof.
  exact (proj2 (proj2 (proj2
           (sendChat_contract Fixtures.client "mini" "hi" (Some "query")
              (Fixtures.always Fixtures.server_error))))
         Fixtures.server_error "boom" eq_refl eq_refl eq_refl).
Defined.

Example sendChat_mode_literal :
  let body_of mode :=
    body (chat_init Fixtures.client "hi" mode) in
  body_of (Some "chat") =
    Some (JSON_stringify (JObject {[ "message" := JString "hi"; "mode" := JString "chat" ]})) /\
  body_of (Some "query") =
    Some (JSON_stringify (JObject {[ "message" := JString "hi"; "mode" := JString "query" ]})) /\
  body_of None = body_of (Some "chat").
Proof. repeat split. Qed.

(** ** deleteWorkspace *)

Lemma deleteWorkspace_run (this : AnythingLLMClient) (slug : string) (net : Network) :
  run net (deleteWorkspace this slug) =
  match net (workspace_url this slug) (delete_init this) with
  | Fulfilled response =>
      if ok response then Fulfilled {| success := true; message := None |}
      else match text response with
           | Fulfilled t => Rejected (new_Error ("Failed to delete workspace: " +:+ t))
           | Rejected e => Rejected e
           end
  | Rejected e => Rejected e
  end.
Proof.
  unfold deleteWorkspace, workspace_url, delete_init. step_async.
  destruct (net _ _) as [response | e]; simpl; [| reflexivity].
  destruct (ok response); simpl; [reflexivity |].
  step_async. destruct (text response); reflexivity.
Qed.

(** C5: [deleteWorkspace] returns [{success: true}] exactly when the
    DELETE request is answered by a response with a status in 200-299. In
    every other case it does not return: on a response outside that range
    it throws, and the Error's message holds the text of the response body.
    So when the server answers the deletion of a slug it does not have (or
    has no more) with an error status, the call fails; the client keeps no
    record of its own that could make it succeed. *)
Theorem deleteWorkspace_contract (this : AnythingLLMClient) (slug : string)
    (net : Network) :
  let answer := net (workspace_url this slug) (delete_init this) in
  let outcome := run net (deleteWorkspace this slug) in
  (outcome = Fulfilled {| success := true; message := None |} <->
     exists response, answer = Fulfilled response /\ ok response = true) /\
  (forall res, outcome = Fulfilled res -> res = {| success := true; message := None |}) /\
  (forall response, answer = Fulfilled response -> ok response = false ->
     exists e, outcome = Rejected e) /\
  (forall response t, answer = Fulfilled response -> ok response = false ->
     text response = Fulfilled t ->
     outcome = Rejected (new_Error ("Failed to delete workspace: " +:+ t))).
Proof.
  intros answer outcome. subst outcome. rewrite deleteWorkspace_run. fold answer.
  destruct answer as [response | e]; [destruct (ok response) eqn:Hok |];
    try destruct (text response) as [t | e] eqn:Htext; settle_cases.
Qed.

(** Deleting a slug the server answers with 400. *)
Lemma deleteWorkspace_contract_absent :
  run (Fixtures.always Fixtures.bad_request) (deleteWorkspace Fixtures.client "gone") =
  Rejected (new_Error "Failed to delete workspace: Bad Request").
Proof.
  exact (proj2 (proj2 (proj2
           (deleteWorkspace_contract Fixtures.client "gone"
              (Fixtures.always Fixtures.bad_request))))
         Fixtures.bad_request "Bad Request" eq_refl eq_refl eq_refl).
Defined.

(** ** getWorkspaces and getUsers *)

Lemma getWorkspaces_run (this : AnythingLLMClient) (net : Network) :
  run net (getWorkspaces this) =
  match net (baseUrl this +:+ "/workspaces") (get_init this) with
  | Fulfilled response =>
      if ok response then
        match json response with
        | Fulfilled data =>
            match get data "workspaces" with
            | Fulfilled workspaces => Fulfilled (or_else workspaces (JArray []))
            | Rejected e => Rejected e
            end
        | Rejected e => Rejected e
        end
      else Rejected (new_Error (statusText response))
  | Rejected e => Rejected e
  end.
Proof.
  unfold getWorkspaces, get_init. step_async.
  destruct (net _ _) as [response | e]; simpl; [| reflexivity].
  destruct (ok response); simpl; [| reflexivity].
  step_async. destruct (json response) as [data | e]; simpl; [| reflexivity].
  step_async. destruct (get data "workspaces"); reflexivity.
Qed.

Lemma getUsers_run (this : AnythingLLMClient) (net : Network) :
  run net (getUsers this) =
  match net (baseUrl this +:+ "/system/users") (get_init this) with
  | Fulfilled response =>
      if ok response then
        match json response with
        | Fulfilled data =>
            match get data "users" with
            | Fulfilled users => Fulfilled (or_else users (JArray []))
            | Rejected e => Rejected e
            end
        | Rejected e => Rejected e
        end
      else Rejected (new_Error ("Failed to fetch users (May require Admin privilege): "
                                +:+ statusText response))
  | Rejected e => Rejected e
  end.
Proof.
  unfold getUsers, get_init. step_async.
  destruct (net _ _) as [response | e]; simpl; [| reflexivity].
  destruct (ok response); simpl; [| reflexivity].
  step_async. destruct (json response) as [data | e]; simpl; [| reflexivity].
  step_async. destruct (get data "users"); reflexivity.
Qed.

(** C6: on a successful response whose body holds the array [workspaces],
    [getWorkspaces] returns that array, the elements in the order the
    server sent them; an empty array comes back as an empty array, not as
    an error. On a response outside 200-299 it throws an Error whose
    message is the HTTP status text. *)
Theorem getWorkspaces_contract (this : AnythingLLMClient) (net : Network) :
  let answer := net (baseUrl this +:+ "/workspaces") (get_init this) in
  let outcome := run net (getWorkspaces this) in
  (forall response fields (workspaces : list JsValue),
     answer = Fulfilled response -> ok response = true ->
     json response = Fulfilled (JObject fields) ->
     fields !! "workspaces" = Some (JArray workspaces) ->
     outcome = Fulfilled (JArray workspaces)) /\
  (forall response fields,
     answer = Fulfilled response -> ok response = true ->
     json response = Fulfilled (JObject fields) ->
     fields !! "workspaces" = Some (JArray []) ->
     outcome = Fulfilled (JArray [])) /\
  (forall response,
     answer = Fulfilled response -> ok response = false ->
     outcome = Rejected (new_Error (statusText response))).
Proof.
  intros answer outcome. subst outcome. rewrite getWorkspaces_run. fold answer.
  repeat split.
  - intros response fields workspaces -> -> -> Hws. simpl. now rewrite Hws.
  - intros response fields -> -> -> Hws. simpl. now rewrite Hws.
  - intros response -> ->. reflexivity.
Qed.

Lemma getWorkspaces_contract_listing :
  run (Fixtures.always (Examples.listing Examples.two_workspaces))
      (getWorkspaces Fixtures.client) = Fulfilled (JArray Examples.two_workspaces) /\
  run (Fixtures.always (Examples.listing []))
      (getWorkspaces Fixtures.client) = Fulfilled (JArray []) /\
  run (Fixtures.always Fixtures.server_error)
      (getWorkspaces Fixtures.client) = Rejected (new_Error "Internal Server Error").
Proof.
  split; [| split].
  - exact (proj1 (getWorkspaces_contract Fixtures.client
                    (Fixtures.always (Examples.listing Examples.two_workspaces)))
             _ _ _ eq_refl eq_refl eq_refl eq_refl).
  - exact (proj1 (proj2 (getWorkspaces_contract Fixtures.client
                           (Fixtures.always (Examples.listing []))))
             _ _ eq_refl eq_refl eq_refl eq_refl).
  - exact (proj2 (proj2 (getWorkspaces_contract Fixtures.client
                           (Fixtures.always Fixtures.server_error)))
             _ eq_refl eq_refl).
Defined.

(** The fixed text in front of a message can be taken off again. *)
Lemma append_cancel (prefix a b : string) :
  prefix +:+ a = prefix +:+ b -> a = b.
Proof.
  induction prefix as [| c prefix IH]; [auto |].
  intros H. apply IH.
  change (String c (prefix +:+ a) = String c (prefix +:+ b)) in H.
  now injection H.
Qed.

(** C9, as amended: on a successful response whose body holds the array
    [users], [getUsers] returns that array in the server's order. On every
    response outside 200-299, whatever its status, it throws a plain Error
    whose message is one fixed text that says admin privilege may be
    required, followed by the HTTP status text. The status is not looked
    at: two failing responses give the same error exactly when their
    status texts are the same, so a denial differs from any other failure
    through the status text only. *)
Theorem getUsers_contract (this : AnythingLLMClient) (net : Network) :
  let answer := net (baseUrl this +:+ "/system/users") (get_init this) in
  let outcome := run net (getUsers this) in
  (forall response fields (users : list JsValue),
     answer = Fulfilled response -> ok response = true ->
     json response = Fulfilled (JObject fields) ->
     fields !! "users" = Some (JArray users) ->
     outcome = Fulfilled (JArray users)) /\
  (forall response,
     answer = Fulfilled response -> ok response = false ->
     outcome =
     Rejected {| err_name := "Error";
                 err_message := "Failed to fetch users (May require Admin privilege): "
                                +:+ statusText response |}) /\
  (forall response response',
     ok response = false -> ok response' = false ->
     (run (fun _ _ => Fulfilled response) (getUsers this)
      = run (fun _ _ => Fulfilled response') (getUsers this)
      <-> statusText response = statusText response')).
Proof.
  intros answer outcome. subst outcome. rewrite getUsers_run. fold answer.
  split; [| split].
  - intros response fields users -> -> -> Hus. simpl. now rewrite Hus.
  - intros response -> ->. reflexivity.
  - intros response response' Hok Hok'. rewrite !getUsers_run, Hok, Hok'. split.
    + intros [= H]. exact (append_cancel _ _ _ H).
    + intros ->. reflexivity.
Qed.

Lemma getUsers_contract_forbidden :
  run (Fixtures.always Fixtures.forbidden) (getUsers Fixtures.client)
    = Rejected (new_Error "Failed to fetch users (May require Admin privilege): Forbidden") /\
  run (Fixtures.always Fixtures.server_error) (getUsers Fixtures.client)
    = Rejected (new_Error
                  "Failed to fetch users (May require Admin privilege): Internal Server Error").
Proof.
  split.
  - exact (proj1 (proj2 (getUsers_contract Fixtures.client
                           (Fixtures.always Fixtures.forbidden)))
             Fixtures.forbidden eq_refl eq_refl).
  - exact (proj1 (proj2 (getUsers_contract Fixtures.client
                           (Fixtures.always Fixtures.server_error)))
             Fixtures.server_error eq_refl eq_refl).
Defined.

(** C9, counterexample: a denial (403) and a server fault (500) that come
    with the same status text, here the empty one of an HTTP/2 response,
    make [getUsers] throw the very same error: nothing in its text tells
    the denial from the other failure. *)
Lemma getUsers_denial_not_distinguished :
  run (Fixtures.always {| status := 403; statusText := "";
                          text := Fulfilled "Forbidden"; json := Fixtures.empty_body |})
      (getUsers Fixtures.client)
  = run (Fixtures.always {| status := 500; statusText := "";
                            text := Fulfilled "boom"; json := Fixtures.empty_body |})
        (getUsers Fixtures.client) /\
  run (Fixtures.always {| status := 500; statusText := "";
                          text := Fulfilled "boom"; json := Fixtures.empty_body |})
      (getUsers Fixtures.client)
  = Rejected (new_Error "Failed to fetch users (May require Admin privilege): ").
Proof. split; reflexivity. Qed.

(** ** Missing array fields *)

(** A value that answers one property read answers every other one. *)
Lemma get_total (data : JsValue) (key key' : string) (v : JsValue) :
  get data key = Fulfilled v -> exists v', get data key' = Fulfilled v'.
Proof. destruct data; simpl; intros H; try discriminate; eauto. Qed.

(** An object without the field reads as [undefined]. *)
Lemma get_missing (fields : gmap string JsValue) (key : string) :
  fields !! key = None -> get (JObject fields) key = Fulfilled JUndefined.
Proof. intros H. simpl. now rewrite H. Qed.

(** A body that is neither [null] nor [undefined] and, when it is an
    object, has no such field, reads as [undefined] at that field. *)
Lemma get_lacking (data : JsValue) (key : string) :
  data <> JNull -> data <> JUndefined ->
  (forall fields, data = JObject fields -> fields !! key = None) ->
  get data key = Fulfilled JUndefined.
Proof.
  intros Hnull Hundefined Hfields.
  destruct data; try contradiction; try reflexivity.
  simpl. now rewrite (Hfields _ eq_refl).
Qed.

(** C10, as amended: when a response with a status in 200-299 has a parsed
    body that is not [null] and in which the expected array field is
    missing, the client puts an empty array in its place: [getWorkspaces]
    returns [[]] without [workspaces], [getUsers] returns [[]] without
    [users], and [sendChat] returns [sources = []] without [sources]. For
    such a body none of them returns [undefined] or throws. (A parsed body
    is never [undefined]; the model's values include it.) *)
Theorem missing_array_defaults (this : AnythingLLMClient) (net : Network) :
  (forall response data,
     net (baseUrl this +:+ "/workspaces") (get_init this) = Fulfilled response ->
     ok response = true ->
     json response = Fulfilled data ->
     data <> JNull -> data <> JUndefined ->
     (forall fields, data = JObject fields -> fields !! "workspaces" = None) ->
     run net (getWorkspaces this) = Fulfilled (JArray [])) /\
  (forall response data,
     net (baseUrl this +:+ "/system/users") (get_init this) = Fulfilled response ->
     ok response = true ->
     json response = Fulfilled data ->
     data <> JNull -> data <> JUndefined ->
     (forall fields, data = JObject fields -> fields !! "users" = None) ->
     run net (getUsers this) = Fulfilled (JArray [])) /\
  (forall slug message mode response data,
     net (chat_url this slug) (chat_init this message mode) = Fulfilled response ->
     ok response = true ->
     json response = Fulfilled data ->
     data <> JNull -> data <> JUndefined ->
     (forall fields, data = JObject fields -> fields !! "sources" = None) ->
     exists answer_text,
       get data "textResponse" = Fulfilled answer_text /\
       run net (sendChat this slug message mode) =
       Fulfilled {| textResponse := answer_text; sources := JArray [] |}).
Proof.
  split; [| split].
  - intros response data Hanswer Hok Hjson Hnull Hundefined Hfields.
    rewrite getWorkspaces_run, Hanswer, Hok, Hjson.
    now rewrite (get_lacking data "workspaces" Hnull Hundefined Hfields).
  - intros response data Hanswer Hok Hjson Hnull Hundefined Hfields.
    rewrite getUsers_run, Hanswer, Hok, Hjson.
    now rewrite (get_lacking data "users" Hnull Hundefined Hfields).
  - intros slug message mode response data Hanswer Hok Hjson Hnull Hundefined Hfields.
    pose proof (get_lacking data "sources" Hnull Hundefined Hfields) as Hget.
    destruct (get_total data "sources" "textResponse" _ Hget) as [answer_text Htext].
    exists answer_text. split; [exact Htext |].
    unfold sendChat. step_async.
    fold (chat_url this slug) (chat_init this message mode).
    rewrite Hanswer. simpl. rewrite Hok. simpl. step_async.
    rewrite Hjson. simpl. step_async. rewrite Htext. simpl. step_async.
    rewrite Hget. reflexivity.
Qed.

Lemma missing_array_defaults_empty_object :
  run (Fixtures.always (Fixtures.ok_json "{}" (JObject ∅))) (getWorkspaces Fixtures.client)
    = Fulfilled (JArray []) /\
  run (Fixtures.always (Fixtures.ok_json "{}" (JObject ∅))) (getUsers Fixtures.client)
    = Fulfilled (JArray []) /\
  exists answer_text,
    get (JObject {[ "textResponse" := JString "hello" ]}) "textResponse"
      = Fulfilled answer_text /\
    run (Fixtures.always
           (Fixtures.ok_json "" (JObject {[ "textResponse" := JString "hello" ]})))
        (sendChat Fixtures.client "mini" "hi" None)
    = Fulfilled {| textResponse := answer_text; sources := JArray [] |}.
Proof.
  pose (empty := Fixtures.ok_json "{}" (JObject ∅)).
  pose (hello := Fixtures.ok_json "" (JObject {[ "textResponse" := JString "hello" ]})).
  split; [| split].
  - apply (proj1 (missing_array_defaults Fixtures.client (Fixtures.always empty))
             empty (JObject ∅)); try reflexivity; try discriminate.
    intros fields [= <-]. reflexivity.
  - apply (proj1 (proj2 (missing_array_defaults Fixtures.client (Fixtures.always empty)))
             empty (JObject ∅)); try reflexivity; try discriminate.
    intros fields [= <-]. reflexivity.
  - apply (proj2 (proj2 (missing_array_defaults Fixtures.client (Fixtures.always hello)))
             "mini" "hi" None hello (JObject {[ "textResponse" := JString "hello" ]}));
      try reflexivity; try discriminate.
    intros fields [= <-]. reflexivity.
Defined.

(** C10, counterexample: the body of a 200 response is the JSON value
    [null]. It has no [workspaces], no [users] and no [sources] field, and
    each of the three methods throws a TypeError where the claim has it
    return an empty array. *)
Lemma missing_array_null_body_throws :
  ok (Fixtures.ok_json "null" JNull) = true /\
  json (Fixtures.ok_json "null" JNull) = Fulfilled JNull /\
  run (Fixtures.always (Fixtures.ok_json "null" JNull)) (getWorkspaces Fixtures.client)
    = Rejected (TypeError "Cannot read properties of null (reading 'workspaces')") /\
  run (Fixtures.always (Fixtures.ok_json "null" JNull)) (getUsers Fixtures.client)
    = Rejected (TypeError "Cannot read properties of null (reading 'users')") /\
  run (Fixtures.always (Fixtures.ok_json "null" JNull))
      (sendChat Fixtures.client "mini" "hi" None)
    = Rejected (TypeError "Cannot read properties of null (reading 'textResponse')").
Proof. repeat split. Qed.

(** A field that is present but falsy is replaced too, and a body that is
    JSON [null] has no fields to read: the property read throws. *)
Example getWorkspaces_other_bodies :
  run (Fixtures.always (Fixtures.ok_json "" (JObject {[ "workspaces" := JNull ]})))
      (getWorkspaces Fixtures.client) = Fulfilled (JArray []) /\
  run (Fixtures.always (Fixtures.ok_json "null" JNull)) (getWorkspaces Fixtures.client)
    = Rejected (TypeError "Cannot read properties of null (reading 'workspaces')").
Proof. split; reflexivity. Qed.

(** ** Construction: base URL and headers *)

Section TrailingSlash.
Local Open Scope nat_scope.

Lemma append_cons (c : ascii) (s t : string) :
  String c s +:+ t = String c (s +:+ t).
Proof. reflexivity. Qed.

Lemma append_nil (t : string) : "" +:+ t = t.
Proof. reflexivity. Qed.

Lemma length_append (s t : string) :
  String.length (s +:+ t) = String.length s + String.length t.
Proof.
  induction s as [| c s IH]; [reflexivity |].
  rewrite append_cons. simpl. now rewrite IH.
Qed.

Lemma trailing_slashes_le (s : string) : trailing_slashes s <= String.length s.
Proof.
  induction s as [| c s IH]; simpl; [lia |].
  destruct ((trailing_slashes s =? String.length s) && Ascii.eqb c "/"); lia.
Qed.

(** Nothing to remove: the string is left as it is. *)
Lemma replace_trailing_slash_none (s : string) :
  trailing_slashes s = 0 -> replace_trailing_slash s = s.
Proof.
  induction s as [| c s IH]; [reflexivity |].
  simpl. destruct s as [| c' s'].
  - simpl. destruct (Ascii.eqb c "/"); [discriminate | reflexivity].
  - destruct ((trailing_slashes (String c' s') =? String.length (String c' s'))
              && Ascii.eqb c "/"); [discriminate |].
    intros H. now rewrite (IH H).
Qed.

(** Otherwise the last slash goes, and only that one. *)
Lemma replace_trailing_slash_some (s : string) :
  0 < trailing_slashes s ->
  s = replace_trailing_slash s +:+ "/" /\
  trailing_slashes (replace_trailing_slash s) = pred (trailing_slashes s).
Proof.
  induction s as [| c s IH]; [simpl; lia |].
  destruct s as [| c' s'].
  - simpl. destruct (Ascii.eqb_spec c "/") as [-> | Hc]; [| lia].
    intros _. split; reflexivity.
  - remember (String c' s') as rest eqn:Hrest.
    assert (Hrep : replace_trailing_slash (String c rest)
                   = String c (replace_trailing_slash rest)) by (subst rest; reflexivity).
    rewrite Hrep. clear Hrep.
    assert (Hlen : 0 < String.length rest) by (subst rest; simpl; lia).
    clear Hrest c' s'.
    cbn [trailing_slashes].
    pose proof (trailing_slashes_le rest) as Hle.
    destruct (Nat.eqb_spec (trailing_slashes rest) (String.length rest)) as [Hall | Hnot];
      destruct (Ascii.eqb_spec c "/") as [-> | Hc]; simpl andb; cbv iota; intros Hpos;
      (destruct IH as [Heq Hts]; [lia |]);
      (split; [rewrite append_cons; congruence |]);
      apply (f_equal String.length) in Heq; rewrite length_append in Heq; simpl in Heq;
      rewrite Hts;
      try (destruct (Nat.eqb_spec (pred (trailing_slashes rest))
                       (String.length (replace_trailing_slash rest))));
      simpl; try lia.
Qed.
End TrailingSlash.

(** ** Trimming *)

Lemma trimStart_spec (s : string) :
  exists before,
    s = before +:+ trimStart s /\
    all_white before = true /\ starts_white (trimStart s) = false.
Proof.
  induction s as [| c s (before & Heq & Hwhite & Hstart)].
  - exists "". repeat split.
  - simpl. destruct (is_white c) eqn:Hc.
    + exists (String c before). rewrite append_cons, <- Heq.
      simpl. rewrite Hc, Hwhite. repeat split. exact Hstart.
    + exists "". simpl. rewrite Hc. repeat split.
Qed.

Lemma trimEnd_spec (s : string) :
  exists after,
    s = trimEnd s +:+ after /\
    all_white after = true /\ ends_white (trimEnd s) = false.
Proof.
  induction s as [| c s (after & Heq & Hwhite & Hend)].
  - exists "". repeat split.
  - simpl. destruct (trimEnd s) as [| c' s'] eqn:Htrim.
    + rewrite append_nil in Heq. subst after.
      destruct (is_white c) eqn:Hc.
      * exists (String c s). simpl. rewrite Hc, Hwhite. repeat split.
      * exists s. simpl. rewrite Hc. repeat split. exact Hwhite.
    + exists after. rewrite append_cons, <- Heq. repeat split; assumption.
Qed.

(** Trimming the end leaves the first code unit in place. *)
Lemma trimEnd_starts (s : string) :
  starts_white s = false -> starts_white (trimEnd s) = false.
Proof.
  destruct s as [| c s]; [reflexivity |].
  simpl. intros Hc. destruct (trimEnd s); [rewrite Hc |]; simpl; auto.
Qed.

Lemma append_assoc (s t u : string) : (s +:+ t) +:+ u = s +:+ t +:+ u.
Proof.
  induction s as [| c s IH]; [reflexivity |].
  now rewrite !append_cons, IH.
Qed.

Lemma trim_spec (s : string) : trimmed_of s (trim s).
Proof.
  unfold trimmed_of, trim.
  destruct (trimStart_spec s) as (before & Hs & Hbefore & Hstart).
  destruct (trimEnd_spec (trimStart s)) as (after & Ht & Hafter & Hend).
  exists before, after. rewrite <- Ht, <- Hs.
  repeat split; auto using trimEnd_starts.
Qed.

(** Case analysis on everything a method inspects after its [fetch]. *)
Ltac settle_requests :=
  repeat (step_async;
          match goal with
          | |- context [match ?x with _ => _ end] => destruct x; simpl
          end);
  try reflexivity.

(** Every operation issues exactly one request, whatever the network
    answers: the one of its endpoint, with the client's headers. *)
Lemma perform_requests {A} (this : AnythingLLMClient) (op : Operation A)
    (net : Network) :
  requests net (perform this op) =
  [ (baseUrl this +:+ endpoint_path op,
     {| method := endpoint_method op;
        headers := client_headers this;
        body := endpoint_body op |}) ].
Proof.
  destruct op; simpl perform; simpl endpoint_path; simpl endpoint_method;
    simpl endpoint_body.
  - unfold validateConnection. settle_requests.
  - unfold getWorkspaces. settle_requests.
  - unfold getWorkspace. settle_requests.
  - unfold createWorkspace. settle_requests.
  - unfold deleteWorkspace. settle_requests.
  - unfold updateEmbeddings. settle_requests.
  - apply sendChat_requests.
  - unfold getUsers. settle_requests.
Qed.

Lemma endpoint_path_slash {A} (op : Operation A) :
  exists rest, endpoint_path op = "/" +:+ rest.
Proof. destruct op; eexists; reflexivity. Qed.

(** X1: Every operation calls [fetch] once, whatever comes back: there is no
    retry and no second request. The request goes to the operation's path
    under the base URL with the operation's HTTP method. *)
Theorem every_operation_fetches_once {A} (this : AnythingLLMClient)
    (op : Operation A) (net : Network) :
  length (requests net (perform this op)) = 1%nat /\
  map fst (requests net (perform this op)) = [baseUrl this +:+ endpoint_path op] /\
  map (fun request => method (snd request)) (requests net (perform this op))
    = [endpoint_method op].
Proof.
  rewrite perform_requests. repeat split.
Qed.

(** C7, as amended: for a host that ends in at most one slash, a client
    built from host, port and token has the base URL
    [cleanHost:port/api/v1], where [cleanHost] is the host without its
    final slash and ends in no slash. Every operation issues one request;
    its URL is the base URL followed by the path of the operation, which
    starts with a slash, and its headers are Authorization: Bearer followed
    by the token without the white space at its two ends,
    Content-Type: application/json and Accept: application/json. The
    headers are the same for every request of the client. *)
Theorem client_requests_base_and_headers {A} (host port token : string)
    (op : Operation A) (net : Network) :
  (trailing_slashes host <= 1)%nat ->
  let this := new_AnythingLLMClient host port token in
  exists cleanHost key init,
    (host = cleanHost \/ host = cleanHost +:+ "/") /\
    trailing_slashes cleanHost = 0%nat /\
    baseUrl this = cleanHost +:+ ":" +:+ port +:+ "/api/v1" /\
    requests net (perform this op) = [(baseUrl this +:+ endpoint_path op, init)] /\
    (exists rest, endpoint_path op = "/" +:+ rest) /\
    trimmed_of token key /\
    headers init =
      [ ("Authorization", "Bearer " +:+ key);
        ("Content-Type", "application/json");
        ("Accept", "application/json") ].
Proof.
  intros Hhost this.
  exists (replace_trailing_slash host), (trim token). eexists.
  split; [| split; [| split; [reflexivity | split; [apply perform_requests |]]]].
  - destruct (trailing_slashes host) as [| n] eqn:Hn.
    + left. symmetry. now apply replace_trailing_slash_none.
    + right. apply replace_trailing_slash_some. lia.
  - destruct (trailing_slashes host) as [| n] eqn:Hn.
    + now rewrite replace_trailing_slash_none.
    + destruct (replace_trailing_slash_some host) as [_ ->]; lia.
  - split; [apply endpoint_path_slash |]. split; [apply trim_spec | reflexivity].
Qed.

Lemma client_requests_base_and_headers_localhost :
  exists cleanHost key init,
    ("http://localhost/" = cleanHost \/ "http://localhost/" = cleanHost +:+ "/") /\
    trailing_slashes cleanHost = 0%nat /\
    baseUrl (new_AnythingLLMClient "http://localhost/" "3001" " KEY ")
      = cleanHost +:+ ":" +:+ "3001" +:+ "/api/v1" /\
    requests Fixtures.unreachable
      (perform (new_AnythingLLMClient "http://localhost/" "3001" " KEY ")
         (GetWorkspace "mini"))
      = [(baseUrl (new_AnythingLLMClient "http://localhost/" "3001" " KEY ")
            +:+ endpoint_path (GetWorkspace "mini"), init)] /\
    (exists rest, endpoint_path (GetWorkspace "mini") = "/" +:+ rest) /\
    trimmed_of " KEY " key /\
    headers init =
      [ ("Authorization", "Bearer " +:+ key);
        ("Content-Type", "application/json");
        ("Accept", "application/json") ].
Proof.
  apply (client_requests_base_and_headers "http://localhost/" "3001" " KEY "
           (GetWorkspace "mini") Fixtures.unreachable).
  vm_compute. lia.
Defined.

Example base_url_localhost :
  baseUrl (new_AnythingLLMClient "http://localhost/" "3001" "KEY")
    = "http://localhost:3001/api/v1" /\
  baseUrl (new_AnythingLLMClient "http://localhost" "3001" "KEY")
    = "http://localhost:3001/api/v1".
Proof. split; reflexivity. Qed.

(** The pattern takes one slash off: of two trailing slashes one stays. *)
Example base_url_two_slashes :
  baseUrl (new_AnythingLLMClient "http://localhost//" "3001" "KEY")
    = "http://localhost/:3001/api/v1".
Proof. reflexivity. Qed.

(** C7, counterexample: the token ' secret ' is sent as 'Bearer secret';
    the header is not Bearer followed by the token as given. *)
Lemma authorization_header_trims_token :
  requests Fixtures.unreachable
    (getWorkspaces (new_AnythingLLMClient "http://localhost" "3001" " secret ")) =
  [ ("http://localhost:3001/api/v1/workspaces",
     {| method := "GET";
        headers := [ ("Authorization", "Bearer secret");
                     ("Content-Type", "application/json");
                     ("Accept", "application/json") ];
        body := None |}) ] /\
  "Bearer secret" <> "Bearer " +:+ " secret ".
Proof. split; [reflexivity | discriminate]. Qed.

(** ** Pre-filled arguments *)

Lemma prefill_param_insert (model : string) (initialArgs : gmap string JsValue)
    (param : SDKMethodParam) :
  prefill_param model initialArgs param =
  <[param_name param := prefilled_value model param]> initialArgs.
Proof.
  unfold prefill_param, prefilled_value.
  destruct (is_slug (param_type param) && truthy (JString model)); [reflexivity |].
  destruct (defaultValue param); reflexivity.
Qed.

Section Prefill.
Variable model : string.

(** Parameters with other names leave a binding alone. *)
Lemma foldl_prefill_other (l : list SDKMethodParam) (acc : gmap string JsValue)
    (key : string) :
  key ∉ map param_name l ->
  foldl (prefill_param model) acc l !! key = acc !! key.
Proof.
  revert acc. induction l as [| p l IH]; intros acc Hkey; [reflexivity |].
  simpl in *. apply not_elem_of_cons in Hkey as [Hne Hkey].
  rewrite IH by exact Hkey.
  rewrite prefill_param_insert. apply lookup_insert_ne. congruence.
Qed.

(** With distinct names, each parameter ends up bound to its own value. *)
Lemma foldl_prefill_lookup (l : list SDKMethodParam) (acc : gmap string JsValue)
    (param : SDKMethodParam) :
  NoDup (map param_name l) -> param ∈ l ->
  foldl (prefill_param model) acc l !! param_name param
  = Some (prefilled_value model param).
Proof.
  revert acc. induction l as [| p l IH]; intros acc Hnodup Hin.
  - inversion Hin.
  - simpl in Hnodup. apply NoDup_cons in Hnodup as [Hfresh Hnodup].
    apply elem_of_cons in Hin as [-> | Hin]; simpl.
    + rewrite foldl_prefill_other by exact Hfresh.
      rewrite prefill_param_insert. apply lookup_insert_eq.
    + now apply IH.
Qed.
End Prefill.

(** No descriptor of the registry declares two parameters of one name. *)
Lemma registry_param_names_distinct (i : nat) (definition : SDKMethodDefinition) :
  SDK_METHODS !! i = Some definition -> NoDup (map param_name (params definition)).
Proof.
  intros Hi.
  do 7 (destruct i as [| i];
        [injection Hi as <-; apply (bool_decide_unpack _); vm_compute; exact I |]).
  discriminate Hi.
Qed.

(** C8: the pre-fill effect of the component, run on a state whose
    selected index is a descriptor of the registry, replaces the bound
    arguments by one binding for every declared parameter and nothing
    else, and clears the last result. A parameter of type slug is bound to the current slug when one
    is known ([config.model] is not empty); with the slug 'finance-docs'
    its value is exactly 'finance-docs'. Every parameter of another type
    is bound to its descriptor's [defaultValue] when one is declared, and
    to the empty string otherwise; so is a slug parameter while no slug is
    known. *)
Theorem prefill_binds_parameters (s : App.State) (definition : SDKMethodDefinition)
    (param : SDKMethodParam) :
  SDK_METHODS !! App.selectedMethodIdx s = Some definition ->
  param ∈ params definition ->
  let model := Types.model (App.config s) in
  exists s',
    App.prefill_state s = Some s' /\
    prefill_effect (App.selectedMethodIdx s) model = Some (App.methodArgs s') /\
    (param_type param = TSlug -> model <> "" ->
       App.methodArgs s' !! param_name param = Some (JString model)) /\
    (param_type param = TSlug -> model = "finance-docs" ->
       App.methodArgs s' !! param_name param = Some (JString "finance-docs")) /\
    (param_type param <> TSlug \/ model = "" ->
       App.methodArgs s' !! param_name param =
       Some match defaultValue param with
            | Some value => value
            | None => JString ""
            end) /\
    (forall key, key ∉ map param_name (params definition) ->
       App.methodArgs s' !! key = None) /\
    App.apiResult s' = None /\
    App.config s' = App.config s /\
    App.selectedMethodIdx s' = App.selectedMethodIdx s.
Proof.
  intros Hidx Hparam model.
  exists (App.setApiResult None
            (App.setMethodArgs (fun _ => prefill definition model) s)).
  assert (Hargs : App.methodArgs
                    (App.setApiResult None
                       (App.setMethodArgs (fun _ => prefill definition model) s))
                  = prefill definition model) by (destruct s; reflexivity).
  rewrite Hargs.
  split; [unfold App.prefill_state, prefill_effect; fold model; now rewrite Hidx |].
  split; [unfold prefill_effect; now rewrite Hidx |].
  pose proof (foldl_prefill_lookup model (params definition) ∅ param
                (registry_param_names_distinct _ _ Hidx) Hparam) as Hbound.
  fold (prefill definition model) in Hbound. rewrite Hbound.
  unfold prefilled_value.
  split; [| split; [| split; [| split; [| split; [| split]]]]].
  - intros -> Hmodel. destruct model; [contradiction | reflexivity].
  - intros -> ->. reflexivity.
  - intros [Htype | ->].
    + destruct (param_type param); try contradiction; reflexivity.
    + now rewrite andb_false_r.
  - intros key Hkey. unfold prefill.
    rewrite (foldl_prefill_other model (params definition) ∅ key Hkey).
    apply lookup_empty.
  - destruct s; reflexivity.
  - destruct s; reflexivity.
  - destruct s; reflexivity.
Qed.

Lemma prefill_binds_parameters_finance_docs :
  exists s',
    App.prefill_state
      (App.selectWorkspace "finance-docs"
         (App.edit_argument "stale" "left over" (App.setSelectedMethodIdx 5 App.initial)))
      = Some s' /\
    App.methodArgs s' !! "slug" = Some (JString "finance-docs") /\
    App.methodArgs s' !! "mode" = Some (JString "chat") /\
    App.methodArgs s' !! "message" = Some (JString "") /\
    App.methodArgs s' !! "stale" = None.
Proof.
  pose (slug := {| param_name := "slug"; param_type := TSlug; required := true;
                   param_description := Some "Target Workspace";
                   defaultValue := None |}).
  destruct (prefill_binds_parameters
              (App.selectWorkspace "finance-docs"
                 (App.edit_argument "stale" "left over"
                    (App.setSelectedMethodIdx 5 App.initial)))
              _ slug eq_refl ltac:(apply list_elem_of_here))
    as (s' & Hstate & _ & Hslug & _ & _ & Hother & _).
  exists s'. split; [exact Hstate |].
  split; [apply Hslug; [reflexivity | discriminate] |].
  split; [injection Hstate as <-; reflexivity |].
  split; [injection Hstate as <-; reflexivity |].
  apply Hother. apply (bool_decide_unpack _). vm_compute. exact I.
Defined.

(** The whole object for [sendChat], with and without a current slug. *)
Example prefill_sendChat :
  prefill_effect 5 "finance-docs"
    = Some {[ "slug" := JString "finance-docs"; "message" := JString "";
              "mode" := JString "chat" ]} /\
  prefill_effect 5 ""
    = Some {[ "slug" := JString ""; "message" := JString ""; "mode" := JString "chat" ]} /\
  prefill_effect 7 "finance-docs" = None.
Proof. repeat split; vm_compute; reflexivity. Qed.

(** * Further properties of the client *)

(** ** What every operation does with a response *)

(** The outcome of an operation, given the answer to its one request. *)
Lemma perform_run_answer {A} (this : AnythingLLMClient) (op : Operation A)
    (net net' : Network) :
  net (baseUrl this +:+ endpoint_path op) (endpoint_init this op)
  = net' (baseUrl this +:+ endpoint_path op) (endpoint_init this op) ->
  run net (perform this op) = run net' (perform this op).
Proof.
  unfold endpoint_init.
  destruct op; simpl perform; simpl endpoint_path; simpl endpoint_method;
    simpl endpoint_body; intros Hanswer.
  - rewrite !validateConnection_run. unfold get_init. now rewrite Hanswer.
  - rewrite !getWorkspaces_run. unfold get_init. now rewrite Hanswer.
  - unfold getWorkspace. step_async. rewrite Hanswer. settle_requests.
  - unfold createWorkspace. step_async. rewrite Hanswer. settle_requests.
  - rewrite !deleteWorkspace_run. unfold workspace_url, delete_init. now rewrite Hanswer.
  - unfold updateEmbeddings. step_async. rewrite Hanswer. settle_requests.
  - unfold sendChat. step_async. rewrite Hanswer. settle_requests.
  - rewrite !getUsers_run. unfold get_init. now rewrite Hanswer.
Qed.


(** X2: A failing operation other than [validateConnection] never returns: on a
    response outside 200-299 its promise rejects. When the body text can be
    read, what it rejects with is the client's own plain Error. *)
Theorem non_ok_response_rejects {A} (this : AnythingLLMClient) (op : Operation A)
    (net : Network) (response : Response) :
  catches op = false ->
  net (baseUrl this +:+ endpoint_path op) (endpoint_init this op) = Fulfilled response ->
  ok response = false ->
  exists e,
    run net (perform this op) = Rejected e /\
    (forall t, text response = Fulfilled t -> err_name e = "Error").
Proof.
  intros Hcatches Hanswer Hok.
  rewrite (perform_run_answer this op net (fun _ _ => Fulfilled response))
    by exact Hanswer.
  destruct op; try discriminate Hcatches; simpl perform;
    [ unfold getWorkspaces | unfold getWorkspace | unfold createWorkspace
    | unfold deleteWorkspace | unfold updateEmbeddings | unfold sendChat
    | unfold getUsers ];
    step_async; rewrite Hok; simpl; step_async;
    try (destruct (text response) as [t | e]; simpl);
    eexists; (split; [reflexivity |]); intros t'; try reflexivity; discriminate.
Qed.

Lemma non_ok_response_rejects_create :
  exists e,
    run (Fixtures.always Fixtures.server_error)
        (perform Fixtures.client (CreateWorkspace "Q1 Finance")) = Rejected e /\
    (forall t, text Fixtures.server_error = Fulfilled t -> err_name e = "Error").
Proof.
  exact (non_ok_response_rejects Fixtures.client (CreateWorkspace "Q1 Finance")
           (Fixtures.always Fixtures.server_error) Fixtures.server_error
           eq_refl eq_refl eq_refl).
Defined.

(** ** getWorkspace, createWorkspace, updateEmbeddings *)

Lemma getWorkspace_run (this : AnythingLLMClient) (slug : string) (net : Network) :
  run net (getWorkspace this slug) =
  match net (workspace_url this slug) (get_init this) with
  | Fulfilled response =>
      if ok response then
        match json response with
        | Fulfilled data => get data "workspace"
        | Rejected e => Rejected e
        end
      else Rejected (new_Error ("Workspace '" +:+ slug +:+ "' not found or error."))
  | Rejected e => Rejected e
  end.
Proof.
  unfold getWorkspace, workspace_url, get_init. step_async.
  destruct (net _ _) as [response | e]; simpl; [| reflexivity].
  destruct (ok response); simpl; [| reflexivity].
  step_async. destruct (json response) as [data | e]; reflexivity.
Qed.

(** X3: [getWorkspace] reports every response outside 200-299 with one message
    that names the slug and neither the status nor the body, so a missing
    workspace and a server fault read the same. On success it hands back
    the [workspace] field as it is: without the field the caller gets
    [undefined], with no substitute put in its place. *)
Theorem getWorkspace_contract (this : AnythingLLMClient) (slug : string)
    (net : Network) :
  let answer := net (workspace_url this slug) (get_init this) in
  let outcome := run net (getWorkspace this slug) in
  (forall response, answer = Fulfilled response -> ok response = false ->
     outcome = Rejected (new_Error ("Workspace '" +:+ slug +:+ "' not found or error."))) /\
  (forall response fields workspace,
     answer = Fulfilled response -> ok response = true ->
     json response = Fulfilled (JObject fields) ->
     fields !! "workspace" = Some workspace ->
     outcome = Fulfilled workspace) /\
  (forall response fields,
     answer = Fulfilled response -> ok response = true ->
     json response = Fulfilled (JObject fields) ->
     fields !! "workspace" = None ->
     outcome = Fulfilled JUndefined).
Proof.
  intros answer outcome. subst outcome. rewrite getWorkspace_run. fold answer.
  repeat split.
  - intros response -> ->. reflexivity.
  - intros response fields workspace -> -> -> Hws. simpl. now rewrite Hws.
  - intros response fields -> -> -> Hws. simpl. now rewrite Hws.
Qed.

Lemma getWorkspace_contract_examples :
  run (Fixtures.always Fixtures.bad_request) (getWorkspace Fixtures.client "mini")
    = Rejected (new_Error "Workspace 'mini' not found or error.") /\
  run (Fixtures.always Fixtures.server_error) (getWorkspace Fixtures.client "mini")
    = Rejected (new_Error "Workspace 'mini' not found or error.") /\
  run (Fixtures.always (Fixtures.ok_json "{}" (JObject ∅))) (getWorkspace Fixtures.client "mini")
    = Fulfilled JUndefined.
Proof.
  split; [| split].
  - exact (proj1 (getWorkspace_contract Fixtures.client "mini"
                    (Fixtures.always Fixtures.bad_request)) _ eq_refl eq_refl).
  - exact (proj1 (getWorkspace_contract Fixtures.client "mini"
                    (Fixtures.always Fixtures.server_error)) _ eq_refl eq_refl).
  - exact (proj2 (proj2 (getWorkspace_contract Fixtures.client "mini"
                           (Fixtures.always (Fixtures.ok_json "{}" (JObject ∅)))))
             _ _ eq_refl eq_refl eq_refl eq_refl).
Defined.

(** X4: [createWorkspace] posts the name as the JSON body [{name}] to
    /workspace/new. A response in 200-299 yields the [workspace] field of
    the parsed body; any other response makes it throw an Error whose
    message ends with the text of the response body. *)
Theorem createWorkspace_contract (this : AnythingLLMClient) (name : string)
    (net : Network) :
  let url := baseUrl this +:+ "/workspace/new" in
  let init := endpoint_init this (CreateWorkspace name) in
  let outcome := run net (createWorkspace this name) in
  requests net (createWorkspace this name) = [(url, init)] /\
  method init = "POST" /\
  body init = Some (JSON_stringify (JObject {[ "name" := JString name ]})) /\
  (forall response fields workspace,
     net url init = Fulfilled response -> ok response = true ->
     json response = Fulfilled (JObject fields) ->
     fields !! "workspace" = Some workspace ->
     outcome = Fulfilled workspace) /\
  (forall response t,
     net url init = Fulfilled response -> ok response = false ->
     text response = Fulfilled t ->
     outcome = Rejected (new_Error ("Failed to create workspace: " +:+ t))).
Proof.
  intros url init outcome.
  split; [exact (perform_requests this (CreateWorkspace name) net) |].
  split; [reflexivity |]. split; [reflexivity |].
  subst outcome. unfold createWorkspace. step_async. fold url.
  change {| method := "POST"; headers := client_headers this;
            body := Some (JSON_stringify (JObject {[ "name" := JString name ]})) |}
    with init.
  split.
  - intros response fields workspace -> Hok Hjson Hws. simpl. rewrite Hok. simpl.
    step_async. rewrite Hjson. simpl. now rewrite Hws.
  - intros response t -> Hok Htext. simpl. rewrite Hok. simpl.
    step_async. now rewrite Htext.
Qed.

Lemma createWorkspace_contract_examples :
  run (Fixtures.always
         (Fixtures.ok_json ""
            (JObject {[ "workspace" := Examples.workspace 2 "Q1 Finance" "q1-finance" ]})))
      (createWorkspace Fixtures.client "Q1 Finance")
    = Fulfilled (Examples.workspace 2 "Q1 Finance" "q1-finance") /\
  run (Fixtures.always Fixtures.server_error) (createWorkspace Fixtures.client "Q1 Finance")
    = Rejected (new_Error "Failed to create workspace: boom").
Proof.
  split.
  - exact (proj1 (proj2 (proj2 (proj2
             (createWorkspace_contract Fixtures.client "Q1 Finance"
                (Fixtures.always
                   (Fixtures.ok_json ""
                      (JObject {[ "workspace" :=
                                    Examples.workspace 2 "Q1 Finance" "q1-finance" ]})))))))
             _ _ _ eq_refl eq_refl eq_refl eq_refl).
  - exact (proj2 (proj2 (proj2 (proj2
             (createWorkspace_contract Fixtures.client "Q1 Finance"
                (Fixtures.always Fixtures.server_error)))))
             _ _ eq_refl eq_refl eq_refl).
Defined.

(** X5: [updateEmbeddings] posts to the workspace's update-embeddings path
    without a body. On a response in 200-299 it wraps whatever the body
    parses to, [null] included, as [{success: true, response}]; it reads no
    field of it. Any other response makes it throw an Error whose message
    ends with the text of the response body. *)
Theorem updateEmbeddings_contract (this : AnythingLLMClient) (slug : string)
    (net : Network) :
  let url := baseUrl this +:+ "/workspace/" +:+ slug +:+ "/update-embeddings" in
  let init := endpoint_init this (UpdateEmbeddings slug) in
  let outcome := run net (updateEmbeddings this slug) in
  requests net (updateEmbeddings this slug) = [(url, init)] /\
  method init = "POST" /\ body init = None /\
  (forall response data,
     net url init = Fulfilled response -> ok response = true ->
     json response = Fulfilled data ->
     outcome = Fulfilled {| embeddings_success := true; embeddings_response := data |}) /\
  (forall response t,
     net url init = Fulfilled response -> ok response = false ->
     text response = Fulfilled t ->
     outcome = Rejected (new_Error ("Failed to update embeddings: " +:+ t))).
Proof.
  intros url init outcome.
  split; [exact (perform_requests this (UpdateEmbeddings slug) net) |].
  split; [reflexivity |]. split; [reflexivity |].
  subst outcome. unfold updateEmbeddings. step_async. fold url.
  change {| method := "POST"; headers := client_headers this; body := None |} with init.
  split.
  - intros response data -> Hok Hjson. simpl. rewrite Hok. simpl.
    step_async. now rewrite Hjson.
  - intros response t -> Hok Htext. simpl. rewrite Hok. simpl.
    step_async. now rewrite Htext.
Qed.

Lemma updateEmbeddings_contract_examples :
  run (Fixtures.always (Fixtures.ok_json "null" JNull))
      (updateEmbeddings Fixtures.client "mini")
    = Fulfilled {| embeddings_success := true; embeddings_response := JNull |} /\
  run (Fixtures.always Fixtures.bad_request) (updateEmbeddings Fixtures.client "mini")
    = Rejected (new_Error "Failed to update embeddings: Bad Request").
Proof.
  split.
  - exact (proj1 (proj2 (proj2 (proj2
             (updateEmbeddings_contract Fixtures.client "mini"
                (Fixtures.always (Fixtures.ok_json "null" JNull))))))
             _ _ eq_refl eq_refl eq_refl).
  - exact (proj2 (proj2 (proj2 (proj2
             (updateEmbeddings_contract Fixtures.client "mini"
                (Fixtures.always Fixtures.bad_request)))))
             _ _ eq_refl eq_refl eq_refl).
Defined.


(** ** Bodies that do not parse, and bodies that are null *)

(** X6: A successful status does not save a body that fails to parse: every
    operation that reads the body rejects with the parser's own error. *)
Theorem unparsable_body_rejects {A} (this : AnythingLLMClient) (op : Operation A)
    (net : Network) (response : Response) (e : JsError) :
  parses_body op = true ->
  net (baseUrl this +:+ endpoint_path op) (endpoint_init this op) = Fulfilled response ->
  ok response = true ->
  json response = Rejected e ->
  run net (perform this op) = Rejected e.
Proof.
  intros Hparses Hanswer Hok Hjson.
  rewrite (perform_run_answer this op net (fun _ _ => Fulfilled response))
    by exact Hanswer.
  destruct op; try discriminate Hparses; simpl perform;
    [ unfold getWorkspaces | unfold getWorkspace | unfold createWorkspace
    | unfold updateEmbeddings | unfold sendChat | unfold getUsers ];
    step_async; rewrite Hok; simpl; step_async; now rewrite Hjson.
Qed.

Lemma unparsable_body_rejects_no_content :
  run (Fixtures.always Fixtures.no_content) (perform Fixtures.client (UpdateEmbeddings "mini"))
  = Rejected {| err_name := "SyntaxError"; err_message := "Unexpected end of JSON input" |}.
Proof.
  exact (unparsable_body_rejects Fixtures.client (UpdateEmbeddings "mini")
           (Fixtures.always Fixtures.no_content) Fixtures.no_content _
           eq_refl eq_refl eq_refl eq_refl).
Defined.

(** X7: A successful response whose body is the JSON value [null] makes every
    operation that reads a field of the body reject with a TypeError: the
    property read throws before any default can apply. *)
Theorem null_body_rejects {A} (this : AnythingLLMClient) (op : Operation A)
    (net : Network) (response : Response) :
  reads_field op = true ->
  net (baseUrl this +:+ endpoint_path op) (endpoint_init this op) = Fulfilled response ->
  ok response = true ->
  json response = Fulfilled JNull ->
  exists e, run net (perform this op) = Rejected e /\ err_name e = "TypeError".
Proof.
  intros Hreads Hanswer Hok Hjson.
  rewrite (perform_run_answer this op net (fun _ _ => Fulfilled response))
    by exact Hanswer.
  destruct op; try discriminate Hreads; simpl perform;
    [ unfold getWorkspaces | unfold getWorkspace | unfold createWorkspace
    | unfold sendChat | unfold getUsers ];
    step_async; rewrite Hok; simpl; step_async; rewrite Hjson; simpl;
    eexists; split; reflexivity.
Qed.

Lemma null_body_rejects_sendChat :
  exists e,
    run (Fixtures.always (Fixtures.ok_json "null" JNull))
        (perform Fixtures.client (SendChat "mini" "hi" None)) = Rejected e /\
    err_name e = "TypeError".
Proof.
  exact (null_body_rejects Fixtures.client (SendChat "mini" "hi" None)
           (Fixtures.always (Fixtures.ok_json "null" JNull))
           (Fixtures.ok_json "null" JNull) eq_refl eq_refl eq_refl eq_refl).
Defined.

Lemma or_else_array_truthy (v : JsValue) : truthy (or_else v (JArray [])) = true.
Proof. unfold or_else. destruct (truthy v) eqn:Hv; [exact Hv | reflexivity]. Qed.

(** X8: What the list operations return is never falsy: [getWorkspaces] and
    [getUsers] never return [undefined], [null], [false], zero or the empty
    string, and neither is the [sources] of a [sendChat] result, whatever
    the server sent. A field of a successful body that is falsy is
    replaced by the empty array, and one that is not is handed back as it
    is. *)
Theorem list_results_truthy (this : AnythingLLMClient) (net : Network) :
  ((forall v, run net (getWorkspaces this) = Fulfilled v -> truthy v = true) /\
   (forall v, run net (getUsers this) = Fulfilled v -> truthy v = true) /\
   (forall slug message mode result,
      run net (sendChat this slug message mode) = Fulfilled result ->
      truthy (sources result) = true)) /\
  (forall response fields field,
     net (baseUrl this +:+ "/workspaces") (get_init this) = Fulfilled response ->
     ok response = true ->
     json response = Fulfilled (JObject fields) ->
     fields !! "workspaces" = Some field ->
     run net (getWorkspaces this)
     = Fulfilled (if truthy field then field else JArray [])) /\
  (forall response fields field,
     net (baseUrl this +:+ "/system/users") (get_init this) = Fulfilled response ->
     ok response = true ->
     json response = Fulfilled (JObject fields) ->
     fields !! "users" = Some field ->
     run net (getUsers this)
     = Fulfilled (if truthy field then field else JArray [])) /\
  (forall slug message mode response fields field,
     net (chat_url this slug) (chat_init this message mode) = Fulfilled response ->
     ok response = true ->
     json response = Fulfilled (JObject fields) ->
     fields !! "sources" = Some field ->
     run net (sendChat this slug message mode)
     = Fulfilled {| textResponse := default JUndefined (fields !! "textResponse");
                    sources := if truthy field then field else JArray [] |}).
Proof.
  split; [split; [| split] | split; [| split]].
  - intros v. rewrite getWorkspaces_run.
    destruct (net _ _) as [response |]; [| discriminate].
    destruct (ok response); [| discriminate].
    destruct (json response) as [data |]; [| discriminate].
    destruct (get data "workspaces"); [| discriminate].
    intros [= <-]. apply or_else_array_truthy.
  - intros v. rewrite getUsers_run.
    destruct (net _ _) as [response |]; [| discriminate].
    destruct (ok response); [| discriminate].
    destruct (json response) as [data |]; [| discriminate].
    destruct (get data "users"); [| discriminate].
    intros [= <-]. apply or_else_array_truthy.
  - intros slug message mode result. unfold sendChat. step_async.
    destruct (net _ _) as [response |]; simpl; [| discriminate].
    destruct (ok response); simpl; step_async.
    + destruct (json response) as [data |]; simpl; [| discriminate].
      step_async. destruct (get data "textResponse"); simpl; [| discriminate].
      step_async. destruct (get data "sources"); simpl; [| discriminate].
      intros [= <-]. apply or_else_array_truthy.
    + destruct (text response); discriminate.
  - intros response fields field Hanswer Hok Hjson Hfield.
    rewrite getWorkspaces_run, Hanswer, Hok, Hjson. simpl. now rewrite Hfield.
  - intros response fields field Hanswer Hok Hjson Hfield.
    rewrite getUsers_run, Hanswer, Hok, Hjson. simpl. now rewrite Hfield.
  - intros slug message mode response fields field Hanswer Hok Hjson Hfield.
    unfold sendChat. step_async.
    fold (chat_url this slug) (chat_init this message mode).
    rewrite Hanswer. simpl. rewrite Hok. simpl. step_async.
    rewrite Hjson. simpl. step_async. now rewrite Hfield.
Qed.

Lemma list_results_truthy_false_field :
  run (Fixtures.always (Fixtures.ok_json "" (JObject {[ "workspaces" := JBool false ]})))
      (getWorkspaces Fixtures.client) = Fulfilled (JArray []) /\
  run (Fixtures.always (Fixtures.ok_json "" (JObject {[ "users" := JNull ]})))
      (getUsers Fixtures.client) = Fulfilled (JArray []) /\
  run (Fixtures.always
         (Fixtures.ok_json "" (JObject {[ "workspaces" := JString "kept" ]})))
      (getWorkspaces Fixtures.client) = Fulfilled (JString "kept").
Proof.
  split; [| split].
  - exact (proj1 (proj2 (list_results_truthy Fixtures.client
                           (Fixtures.always
                              (Fixtures.ok_json ""
                                 (JObject {[ "workspaces" := JBool false ]})))))
             _ _ (JBool false) eq_refl eq_refl eq_refl eq_refl).
  - exact (proj1 (proj2 (proj2 (list_results_truthy Fixtures.client
                                  (Fixtures.always
                                     (Fixtures.ok_json "" (JObject {[ "users" := JNull ]}))))))
             _ _ JNull eq_refl eq_refl eq_refl eq_refl).
  - exact (proj1 (proj2 (list_results_truthy Fixtures.client
                           (Fixtures.always
                              (Fixtures.ok_json ""
                                 (JObject {[ "workspaces" := JString "kept" ]})))))
             _ _ (JString "kept") eq_refl eq_refl eq_refl eq_refl).
Defined.

(** ** The constructor as a normalisation *)

Lemma replace_trailing_slash_append (s : string) :
  replace_trailing_slash (s +:+ "/") = s.
Proof.
  induction s as [| c s IH]; [reflexivity |].
  rewrite append_cons. destruct s as [| c' s'].
  - reflexivity.
  - rewrite append_cons in *. simpl. simpl in IH. now rewrite IH.
Qed.

Lemma trimStart_white (s : string) : all_white s = true -> trimStart s = "".
Proof.
  induction s as [| c s IH]; [reflexivity |].
  simpl. intros [Hc Hs]%andb_prop. rewrite Hc. auto.
Qed.

Lemma trimEnd_white (s : string) : all_white s = true -> trimEnd s = "".
Proof.
  induction s as [| c s IH]; [reflexivity |].
  simpl. intros [Hc Hs]%andb_prop. rewrite (IH Hs), Hc. reflexivity.
Qed.

Lemma trimStart_pad (before s : string) :
  all_white before = true -> trimStart (before +:+ s) = trimStart s.
Proof.
  induction before as [| c before IH]; [reflexivity |].
  rewrite append_cons. simpl. intros [Hc Hs]%andb_prop. rewrite Hc. auto.
Qed.

Lemma trimEnd_pad (s after : string) :
  all_white after = true -> trimEnd (s +:+ after) = trimEnd s.
Proof.
  intros Hafter. induction s as [| c s IH].
  - rewrite append_nil. now apply trimEnd_white.
  - rewrite append_cons. simpl. now rewrite IH.
Qed.

Lemma trim_pad_end (s after : string) :
  all_white after = true -> trim (s +:+ after) = trim s.
Proof.
  intros Hafter. unfold trim. induction s as [| c s IH].
  - rewrite append_nil. now rewrite trimStart_white.
  - rewrite append_cons. simpl. destruct (is_white c); [exact IH |].
    rewrite <- append_cons. now apply trimEnd_pad.
Qed.

(** White space around a token does not change what is trimmed out of it. *)
Lemma trim_pad (before s after : string) :
  all_white before = true -> all_white after = true ->
  trim (before +:+ s +:+ after) = trim s.
Proof.
  intros Hbefore Hafter. rewrite <- (trim_pad_end s after Hafter).
  unfold trim. now rewrite trimStart_pad.
Qed.

(** X9: One slash at the end of the host and white space around the key do
    not make a different client: it has the same base URL and the same key,
    so it sends the same requests, as the client built from the host
    without that slash and from the bare key. *)
Theorem client_normalises_host_and_key (host port key before after : string) :
  trailing_slashes host = 0%nat ->
  all_white before = true -> all_white after = true ->
  new_AnythingLLMClient (host +:+ "/") port (before +:+ key +:+ after)
  = new_AnythingLLMClient host port key.
Proof.
  intros Hhost Hbefore Hafter. unfold new_AnythingLLMClient.
  rewrite replace_trailing_slash_append, (replace_trailing_slash_none host Hhost).
  now rewrite trim_pad.
Qed.

Lemma client_normalises_host_and_key_localhost :
  new_AnythingLLMClient "http://localhost/" "3001" "  KEY "
  = new_AnythingLLMClient "http://localhost" "3001" "KEY".
Proof.
  exact (client_normalises_host_and_key "http://localhost" "3001" "KEY" "  " " "
           eq_refl eq_refl eq_refl).
Defined.

(** X10: The constructor takes exactly one slash off a host that ends in
    slashes, and nothing off any other host: a host that ends in several
    slashes keeps all but one of them in the base URL. *)
Theorem base_url_drops_one_slash (host port key : string) :
  exists cleanHost,
    baseUrl (new_AnythingLLMClient host port key)
      = cleanHost +:+ ":" +:+ port +:+ "/api/v1" /\
    (host = cleanHost /\ trailing_slashes host = 0%nat \/
     host = cleanHost +:+ "/" /\
     trailing_slashes host = S (trailing_slashes cleanHost)).
Proof.
  exists (replace_trailing_slash host). split; [reflexivity |].
  destruct (trailing_slashes host) as [| n] eqn:Hn.
  - left. split; [| reflexivity]. symmetry. now apply replace_trailing_slash_none.
  - right. destruct (replace_trailing_slash_some host) as [Heq Hts]; [lia |].
    split; [exact Heq |]. rewrite Hts, Hn. reflexivity.
Qed.

(** A key made of white space only is sent as an empty bearer token. *)
Lemma blank_key_empty_bearer (host port key : string) :
  all_white key = true ->
  client_headers (new_AnythingLLMClient host port key)
  = [ ("Authorization", "Bearer ");
      ("Content-Type", "application/json");
      ("Accept", "application/json") ].
Proof.
  intros Hkey. unfold client_headers, new_AnythingLLMClient. simpl apiKey.
  unfold trim. rewrite (trimStart_white key Hkey). reflexivity.
Qed.

(** * The Ollama service *)

Lemma prefix_append (p s : string) :
  String.prefix p s = true <-> exists rest, s = p +:+ rest.
Proof.
  revert s. induction p as [| c p IH]; intros s.
  - split; [intros _; exists s; reflexivity | destruct s; reflexivity].
  - destruct s as [| c' s]; simpl.
    + split; [discriminate | intros [rest H]; discriminate].
    + destruct (ascii_dec c c') as [-> | Hc].
      * rewrite IH. split; intros [rest H]; exists rest.
        -- rewrite append_cons. now rewrite H.
        -- rewrite append_cons in H. now injection H.
      * split; [discriminate |]. intros [rest H]. rewrite append_cons in H.
        injection H as H _. congruence.
Qed.

Lemma includes_unfold (s pattern : string) :
  includes s pattern =
  if String.prefix pattern s then true
  else match s with
       | "" => false
       | String _ rest => includes rest pattern
       end.
Proof. destruct s; reflexivity. Qed.

(** [includes] finds the pattern exactly when it occurs somewhere. *)
Lemma includes_occurs (s pattern : string) :
  includes s pattern = true <-> exists before after, s = before +:+ pattern +:+ after.
Proof.
  induction s as [| c s IH]; rewrite includes_unfold.
  - destruct (String.prefix pattern "") eqn:Hp.
    + split; [intros _ | reflexivity].
      apply prefix_append in Hp as [rest H]. exists "", rest. exact H.
    + split; [discriminate |]. intros (before & after & H).
      destruct before; [| discriminate].
      assert (String.prefix pattern "" = true) by (apply prefix_append; eauto).
      congruence.
  - destruct (String.prefix pattern (String c s)) eqn:Hp.
    + split; [intros _ | reflexivity].
      apply prefix_append in Hp as [rest H]. exists "", rest. exact H.
    + rewrite IH. split; intros (before & after & H).
      * exists (String c before), after. rewrite append_cons. now rewrite H.
      * destruct before as [| c' before].
        -- assert (String.prefix pattern (String c s) = true)
             by (apply prefix_append; eauto).
           congruence.
        -- rewrite append_cons in H. injection H as _ H. eauto.
Qed.

Lemma includes_empty (pattern : string) :
  pattern <> "" -> includes "" pattern = false.
Proof. destruct pattern; [congruence | reflexivity]. Qed.

Lemma ollama_checkConnection_run (config : Types.AppConfig) (net : Network) :
  run net (ollamaService.checkConnection config) =
  match net (ollama_url config) {| method := "GET"; headers := []; body := None |} with
  | Fulfilled response =>
      if ok response then
        Fulfilled {| ollamaService.success := true; ollamaService.error := None |}
      else
        Fulfilled {| ollamaService.success := false;
                     ollamaService.error :=
                       Some ("Server returned " +:+ show (status response)
                             +:+ " " +:+ statusText response) |}
  | Rejected e =>
      let msg := str_or (err_message e) "Unknown error" in
      if includes msg "Failed to fetch" || includes msg "NetworkError" then
        Fulfilled {| ollamaService.success := false;
                     ollamaService.error := Some ollamaService.cors_check_message |}
      else
        Fulfilled {| ollamaService.success := false; ollamaService.error := Some msg |}
  end.
Proof.
  unfold ollamaService.checkConnection, ollama_url. step_async.
  destruct (net _ _) as [response | e]; simpl.
  - destruct (ok response); reflexivity.
  - destruct (includes _ _ || includes _ _); reflexivity.
Qed.

Lemma includes_str_or (m pattern : string) :
  pattern <> "" -> includes "Unknown error" pattern = false ->
  includes (str_or m "Unknown error") pattern = includes m pattern.
Proof.
  intros Hp Hunknown. destruct m; [| reflexivity].
  simpl str_or. now rewrite includes_empty.
Qed.

(** X11: The Ollama check never throws. It succeeds on every response with a
    status in 200-299. A transport failure whose message holds 'Failed to
    fetch' or 'NetworkError' anywhere is reported with the fixed advice on
    CORS; any other failure is reported with its own message, or with
    'Unknown error' when it has none. The reported error is never empty. *)
Theorem ollama_checkConnection_contract (config : Types.AppConfig) (net : Network) :
  let answer := net (ollama_url config)
                    {| method := "GET"; headers := []; body := None |} in
  exists result,
    run net (ollamaService.checkConnection config) = Fulfilled result /\
    (ollamaService.success result = true <->
       exists response, answer = Fulfilled response /\ ok response = true) /\
    (ollamaService.success result = false ->
       exists msg, ollamaService.error result = Some msg /\ msg <> "") /\
    (forall e, answer = Rejected e ->
       includes (err_message e) "Failed to fetch" = true \/
       includes (err_message e) "NetworkError" = true ->
       ollamaService.error result = Some ollamaService.cors_check_message) /\
    (forall e, answer = Rejected e ->
       includes (err_message e) "Failed to fetch" = false ->
       includes (err_message e) "NetworkError" = false ->
       ollamaService.error result = Some (str_or (err_message e) "Unknown error")).
Proof.
  intros answer. rewrite ollama_checkConnection_run. fold answer.
  destruct answer as [response | e].
  - destruct (ok response) eqn:Hok; (eexists; split; [reflexivity |]); simpl;
      settle_cases.
  - cbv zeta.
    rewrite !includes_str_or by (reflexivity || discriminate).
    destruct (includes (err_message e) "Failed to fetch") eqn:Hfetch;
      destruct (includes (err_message e) "NetworkError") eqn:Hnet; simpl;
      (eexists; split; [reflexivity |]); simpl; settle_cases;
      try (eexists; split; [reflexivity |]; try discriminate);
      now apply str_or_nonempty.
Qed.

Lemma ollama_checkConnection_contract_cors :
  exists result,
    run Fixtures.unreachable
        (ollamaService.checkConnection (App.config App.initial)) = Fulfilled result /\
    ollamaService.error result = Some ollamaService.cors_check_message.
Proof.
  destruct (ollama_checkConnection_contract (App.config App.initial) Fixtures.unreachable)
    as (result & Hrun & _ & _ & Hcors & _).
  exists result. split; [exact Hrun |].
  apply (Hcors Fixtures.failed_to_fetch); [reflexivity | left; reflexivity].
Defined.

Lemma ollama_generateResponse_run (config : Types.AppConfig) (prompt : string)
    (net : Network) :
  run net (ollamaService.generateResponse config prompt) =
  match net (ollama_url config +:+ "/api/generate") (generate_init config prompt) with
  | Fulfilled response =>
      if ok response then
        match json response with
        | Fulfilled data =>
            match get data "response", get data "created_at",
                  get data "done", get data "total_duration" with
            | Fulfilled r, Fulfilled c, Fulfilled d, Fulfilled t =>
                Fulfilled {| Types.response := r; Types.created_at := c;
                             Types.done := d; Types.total_duration := t |}
            | Rejected e, _, _, _ | _, Rejected e, _, _
            | _, _, Rejected e, _ | _, _, _, Rejected e => Rejected (generate_rethrow e)
            end
        | Rejected e => Rejected (generate_rethrow e)
        end
      else
        Rejected (generate_rethrow
                    (new_Error ("Ollama API Error: " +:+ show (status response)
                                +:+ " " +:+ statusText response)))
  | Rejected e => Rejected (generate_rethrow e)
  end.
Proof.
  unfold ollamaService.generateResponse, ollama_url, generate_init, generate_rethrow.
  step_async.
  destruct (net _ _) as [response | e]; simpl.
  - destruct (ok response); simpl; step_async.
    + destruct (json response) as [data | e]; simpl.
      * step_async. destruct (get data "response"); simpl;
          [step_async; destruct (get data "created_at"); simpl;
             [step_async; destruct (get data "done"); simpl;
                [step_async; destruct (get data "total_duration"); simpl |] |] |];
          try reflexivity;
          match goal with |- context [if ?b then _ else _] => destruct b end; reflexivity.
      * match goal with |- context [if ?b then _ else _] => destruct b end; reflexivity.
    + match goal with |- context [if ?b then _ else _] => destruct b end; reflexivity.
  - match goal with |- context [if ?b then _ else _] => destruct b end; reflexivity.
Qed.

Lemma generate_rethrow_clean (e : JsError) :
  includes (err_message (generate_rethrow e)) "Failed to fetch" = false /\
  includes (err_message (generate_rethrow e)) "NetworkError" = false.
Proof.
  unfold generate_rethrow.
  destruct (err_message e) as [| c m] eqn:Hm; simpl negb; cbv iota.
  - simpl andb. cbv iota. rewrite Hm. split; reflexivity.
  - rewrite andb_true_l.
    destruct (includes (String c m) "Failed to fetch") eqn:Hfetch;
      destruct (includes (String c m) "NetworkError") eqn:Hnet; simpl orb; cbv iota;
      try (split; vm_compute; reflexivity).
    rewrite Hm. now split.
Qed.

(** X12: [generateResponse] never fails with a message that holds 'Failed to
    fetch' or 'NetworkError': every error, the transport's and its own
    HTTP error alike, passes its catch, which replaces such a message by
    the advice on CORS. *)
Theorem ollama_generateResponse_no_fetch_text (config : Types.AppConfig)
    (prompt : string) (net : Network) (e : JsError) :
  run net (ollamaService.generateResponse config prompt) = Rejected e ->
  includes (err_message e) "Failed to fetch" = false /\
  includes (err_message e) "NetworkError" = false.
Proof.
  rewrite ollama_generateResponse_run.
  destruct (net _ _) as [response | e0].
  - destruct (ok response).
    + destruct (json response) as [data | e0].
      * destruct (get data "response"), (get data "created_at"),
          (get data "done"), (get data "total_duration");
          intros [= <-] || discriminate; apply generate_rethrow_clean.
      * intros [= <-]. apply generate_rethrow_clean.
    + intros [= <-]. apply generate_rethrow_clean.
  - intros [= <-]. apply generate_rethrow_clean.
Qed.

Lemma ollama_generateResponse_no_fetch_text_unreachable :
  run Fixtures.unreachable
      (ollamaService.generateResponse (App.config App.initial) "hi")
    = Rejected (new_Error ollamaService.cors_generate_message) /\
  includes ollamaService.cors_generate_message "Failed to fetch" = false /\
  includes ollamaService.cors_generate_message "NetworkError" = false.
Proof.
  split; [reflexivity |].
  exact (ollama_generateResponse_no_fetch_text (App.config App.initial) "hi"
           Fixtures.unreachable (new_Error ollamaService.cors_generate_message) eq_refl).
Defined.


Lemma ollama_generateResponse_requests (config : Types.AppConfig) (prompt : string)
    (net : Network) :
  requests net (ollamaService.generateResponse config prompt) =
  [(ollama_url config +:+ "/api/generate", generate_init config prompt)].
Proof.
  unfold ollamaService.generateResponse, ollama_url, generate_init.
  settle_requests.
Qed.

(** X13: [generateResponse] posts [{model, prompt, stream: false}] to
    /api/generate under the configured host and port, with a Content-Type
    header and no authorization. On a response in 200-299 whose body is an
    object it copies the four fields [response], [created_at], [done] and
    [total_duration], each [undefined] when the body has none. On any other
    response it throws 'Ollama API Error:' with the status code and text,
    as long as that message holds none of the two marker texts. *)
Theorem ollama_generateResponse_contract (config : Types.AppConfig) (prompt : string)
    (net : Network) :
  let url := ollama_url config +:+ "/api/generate" in
  let init := generate_init config prompt in
  let outcome := run net (ollamaService.generateResponse config prompt) in
  requests net (ollamaService.generateResponse config prompt) = [(url, init)] /\
  headers init = [("Content-Type", "application/json")] /\
  (forall response fields,
     net url init = Fulfilled response -> ok response = true ->
     json response = Fulfilled (JObject fields) ->
     outcome =
     Fulfilled {| Types.response := default JUndefined (fields !! "response");
                  Types.created_at := default JUndefined (fields !! "created_at");
                  Types.done := default JUndefined (fields !! "done");
                  Types.total_duration := default JUndefined (fields !! "total_duration") |}) /\
  (forall response,
     net url init = Fulfilled response -> ok response = false ->
     let msg := "Ollama API Error: " +:+ show (status response)
                +:+ " " +:+ statusText response in
     includes msg "Failed to fetch" = false ->
     includes msg "NetworkError" = false ->
     outcome = Rejected (new_Error msg)).
Proof.
  intros url init outcome. subst outcome.
  split; [apply ollama_generateResponse_requests |]. split; [reflexivity |].
  rewrite ollama_generateResponse_run. fold url init. split.
  - intros response fields -> -> ->. reflexivity.
  - intros response -> -> msg Hfetch Hnet. unfold generate_rethrow.
    change (err_message (new_Error ?m)) with m. fold msg.
    now rewrite Hfetch, Hnet, andb_false_r.
Qed.

Lemma ollama_generateResponse_contract_examples :
  run (Fixtures.always
         (Fixtures.ok_json "" (JObject {[ "response" := JString "hello"; "done" := JBool true ]})))
      (ollamaService.generateResponse (App.config App.initial) "hi")
    = Fulfilled {| Types.response := JString "hello"; Types.created_at := JUndefined;
                   Types.done := JBool true; Types.total_duration := JUndefined |} /\
  run (Fixtures.always Fixtures.server_error)
      (ollamaService.generateResponse (App.config App.initial) "hi")
    = Rejected (new_Error "Ollama API Error: 500 Internal Server Error").
Proof.
  split.
  - exact (proj1 (proj2 (proj2
             (ollama_generateResponse_contract (App.config App.initial) "hi"
                (Fixtures.always
                   (Fixtures.ok_json ""
                      (JObject {[ "response" := JString "hello";
                                  "done" := JBool true ]}))))))
             _ _ eq_refl eq_refl eq_refl).
  - exact (proj2 (proj2 (proj2
             (ollama_generateResponse_contract (App.config App.initial) "hi"
                (Fixtures.always Fixtures.server_error))))
             _ eq_refl eq_refl eq_refl eq_refl).
Defined.

Lemma includes_append (s pattern before : string) :
  includes s pattern = true -> includes (before +:+ s) pattern = true.
Proof.
  rewrite !includes_occurs. intros (b & a & ->).
  exists (before +:+ b), a. now rewrite append_assoc.
Qed.

(** X14: An HTTP error of Ollama whose status text holds 'Failed to fetch' or
    'NetworkError' is not reported as an HTTP error: [generateResponse]
    catches its own error and throws the advice on CORS in its place, so
    the status code is lost. *)
Theorem ollama_http_error_masked (config : Types.AppConfig) (prompt : string)
    (net : Network) (response : Response) :
  net (ollama_url config +:+ "/api/generate") (generate_init config prompt)
    = Fulfilled response ->
  ok response = false ->
  includes (statusText response) "Failed to fetch" = true \/
  includes (statusText response) "NetworkError" = true ->
  run net (ollamaService.generateResponse config prompt)
  = Rejected (new_Error ollamaService.cors_generate_message).
Proof.
  intros Hanswer Hok Hmarker.
  rewrite ollama_generateResponse_run, Hanswer, Hok. unfold generate_rethrow.
  change (err_message (new_Error ?m)) with m.
  set (prefix := "Ollama API Error: " +:+ show (status response) +:+ " ").
  assert (Hmsg : "Ollama API Error: " +:+ show (status response) +:+ " "
                 +:+ statusText response = prefix +:+ statusText response).
  { unfold prefix. now rewrite !append_assoc. }
  rewrite Hmsg.
  assert (Hnonempty : String.eqb (prefix +:+ statusText response) "" = false).
  { unfold prefix. reflexivity. }
  rewrite Hnonempty. simpl negb. rewrite andb_true_l.
  destruct Hmarker as [H | H]; rewrite (includes_append _ _ prefix H);
    [| rewrite orb_true_r]; reflexivity.
Qed.

Lemma ollama_http_error_masked_example :
  run (Fixtures.always
         {| status := 502; statusText := "NetworkError at upstream";
            text := Fulfilled ""; json := Fixtures.empty_body |})
      (ollamaService.generateResponse (App.config App.initial) "hi")
  = Rejected (new_Error ollamaService.cors_generate_message).
Proof.
  exact (ollama_http_error_masked (App.config App.initial) "hi"
           (Fixtures.always
              {| status := 502; statusText := "NetworkError at upstream";
                 text := Fulfilled ""; json := Fixtures.empty_body |})
           _ eq_refl eq_refl (or_intror eq_refl)).
Defined.

(** * The application component *)

(** ** Running handlers *)

Section RunningHandlers.
Context {S A B : Type} (net : Network).

Lemma run_hbind (m : Handler S A) (f : A -> Handler S B) (s : S) :
  run net (hbind m f s) =
  match run net (m s) with
  | Fulfilled (s', Fulfilled a) => run net (f a s')
  | Fulfilled (s', Rejected e) => Fulfilled (s', Rejected e)
  | Rejected e => Rejected e
  end.
Proof.
  unfold hbind. rewrite run_bind.
  destruct (run net (m s)) as [[s' [a | e]] | e]; reflexivity.
Qed.

Lemma requests_hbind (m : Handler S A) (f : A -> Handler S B) (s : S) :
  requests net (hbind m f s) =
  (requests net (m s) ++
   match run net (m s) with
   | Fulfilled (s', Fulfilled a) => requests net (f a s')
   | _ => []
   end)%list.
Proof.
  unfold hbind. rewrite requests_bind.
  destruct (run net (m s)) as [[s' [a | e]] | e]; reflexivity.
Qed.

Lemma run_htry (m : Handler S A) (h : JsError -> Handler S A) (s : S) :
  run net (htry m h s) =
  match run net (m s) with
  | Fulfilled (s', Fulfilled a) => Fulfilled (s', Fulfilled a)
  | Fulfilled (s', Rejected e) => run net (h e s')
  | Rejected e => Rejected e
  end.
Proof.
  unfold htry. rewrite run_bind.
  destruct (run net (m s)) as [[s' [a | e]] | e]; reflexivity.
Qed.

Lemma requests_htry (m : Handler S A) (h : JsError -> Handler S A) (s : S) :
  requests net (htry m h s) =
  (requests net (m s) ++
   match run net (m s) with
   | Fulfilled (s', Rejected e) => requests net (h e s')
   | _ => []
   end)%list.
Proof.
  unfold htry. rewrite requests_bind.
  destruct (run net (m s)) as [[s' [a | e]] | e]; reflexivity.
Qed.

Lemma run_hfinally (m : Handler S A) (f : S -> S) (s : S) :
  run net (hfinally m f s) =
  match run net (m s) with
  | Fulfilled (s', r) => Fulfilled (f s', r)
  | Rejected e => Rejected e
  end.
Proof.
  unfold hfinally. rewrite run_bind.
  destruct (run net (m s)) as [[s' r] | e]; reflexivity.
Qed.

Lemma requests_hfinally (m : Handler S A) (f : S -> S) (s : S) :
  requests net (hfinally m f s) = requests net (m s).
Proof.
  unfold hfinally. rewrite requests_bind.
  destruct (run net (m s)) as [[s' r] | e]; simpl; apply app_nil_r.
Qed.

Lemma run_hawait (m : Async A) (s : S) :
  run net (hawait m s) = Fulfilled (s, run net m).
Proof.
  unfold hawait. rewrite run_try_catch, run_bind.
  destruct (run net m); reflexivity.
Qed.

Lemma requests_hawait (m : Async A) (s : S) :
  requests net (hawait (S := S) m s) = requests net m.
Proof.
  unfold hawait. rewrite requests_try_catch, requests_bind, run_bind.
  destruct (run net m); simpl; now rewrite !app_nil_r.
Qed.
End RunningHandlers.

Create Rewrite HintDb handler.
#[local] Hint Rewrite @run_hbind @run_htry @run_hfinally @run_hawait
  @requests_hbind @requests_htry @requests_hfinally @requests_hawait : handler.

(** Push [run] and [requests] through the combinators of a handler. *)
Ltac step_handler :=
  repeat (autorewrite with handler;
          cbn [modify gets hret hthrow hsettled ret run requests fst snd app id]).

Lemma fetchWorkspaces_run (net : Network) (client : option AnythingLLMClient)
    (s : App.State) :
  run net (App.fetchWorkspaces client s) =
  Fulfilled (match run net (getWorkspaces (default (App.client_of (App.config s)) client)) with
             | Fulfilled workspaces => App.setAvailableWorkspaces workspaces s
             | Rejected _ => s
             end, Fulfilled tt).
Proof.
  unfold App.fetchWorkspaces. step_handler.
  destruct (run net (getWorkspaces _)); reflexivity.
Qed.

Lemma fetchWorkspaces_requests (net : Network) (client : option AnythingLLMClient)
    (s : App.State) :
  requests net (App.fetchWorkspaces client s) =
  [(baseUrl (default (App.client_of (App.config s)) client) +:+ "/workspaces",
    get_init (default (App.client_of (App.config s)) client))].
Proof.
  unfold App.fetchWorkspaces. step_handler.
  pose proof (perform_requests (default (App.client_of (App.config s)) client)
                GetWorkspaces net) as Hrequests.
  simpl perform in Hrequests. rewrite Hrequests.
  destruct (run net (getWorkspaces _)); reflexivity.
Qed.

(** X15: A refresh of the workspace list never throws and reports nothing: when
    the request fails in any way, the state is left exactly as it was, so
    the list shown is the one of the last success, and neither the status
    nor the error text says that the refresh failed. On success only the
    list changes. *)
Theorem fetchWorkspaces_failure_is_silent (net : Network)
    (client : option AnythingLLMClient) (s : App.State) :
  let sdk := default (App.client_of (App.config s)) client in
  exists s',
    run net (App.fetchWorkspaces client s) = Fulfilled (s', Fulfilled tt) /\
    (forall e, run net (getWorkspaces sdk) = Rejected e -> s' = s) /\
    (forall workspaces, run net (getWorkspaces sdk) = Fulfilled workspaces ->
       s' = App.setAvailableWorkspaces workspaces s).
Proof.
  intros sdk. eexists. split; [apply fetchWorkspaces_run |]. fold sdk.
  split; intros x ->; reflexivity.
Qed.

Lemma fetchWorkspaces_failure_is_silent_unreachable :
  run Fixtures.unreachable (App.fetchWorkspaces None App.initial)
  = Fulfilled (App.initial, Fulfilled tt).
Proof.
  destruct (fetchWorkspaces_failure_is_silent Fixtures.unreachable None App.initial)
    as (s' & Hrun & Hfail & _).
  rewrite Hrun. now rewrite (Hfail Fixtures.failed_to_fetch eq_refl).
Defined.

(** Closing a goal about the final state of a handler: the state is
    given by computation, and what is asked of it by cases. *)
Ltac state_facts :=
  cbn in *;
  repeat match goal with
    | |- _ /\ _ => split
    | |- _ <-> _ => split
    | |- forall _, _ => intro
    | H : Fulfilled _ = Fulfilled _ |- _ => injection H as <-
    | H : ex _ |- _ => destruct H
    | H : _ /\ _ |- _ => destruct H
    | H1 : ?x = Fulfilled _, H2 : ?x = _ |- _ => rewrite H1 in H2
    | H1 : ?x = Rejected _, H2 : ?x = _ |- _ => rewrite H1 in H2
    end;
  try contradiction; try congruence; try discriminate; try reflexivity;
  try (left; repeat split; reflexivity);
  try (right; split; [reflexivity |]; eexists; split; [reflexivity |];
       first [apply str_or_nonempty; discriminate | discriminate]);
  eauto.

(** X16: [checkConnection] never throws and never leaves the status at
    'checking': it ends connected, with no error and the settings closed,
    or in error with a non-empty error text. The configuration is not
    touched. With AnythingLLM it ends connected exactly when /auth answers
    with status 200; with Ollama exactly when the root answers with a
    status in 200-299. *)
Theorem checkConnection_outcome (net : Network) (s : App.State) :
  let c := App.config s in
  let client := App.client_of c in
  exists s',
    run net (App.checkConnection s) = Fulfilled (s', Fulfilled tt) /\
    App.config s' = c /\
    (App.status s' = "connected" /\ App.error s' = None /\ App.isSettingsOpen s' = false \/
     App.status s' = "error" /\ exists msg, App.error s' = Some msg /\ msg <> "") /\
    (Types.provider c <> "ollama" ->
     (App.status s' = "connected" <->
      exists response,
        net (baseUrl client +:+ "/auth") (get_init client) = Fulfilled response /\
        status response = 200)) /\
    (Types.provider c = "ollama" ->
     (App.status s' = "connected" <->
      exists response,
        net (ollama_url c) {| method := "GET"; headers := []; body := None |}
          = Fulfilled response /\
        ok response = true)).
Proof.
  intros c client. unfold App.checkConnection. step_handler. fold c.
  destruct (String.eqb_spec (Types.provider c) "ollama") as [Hprovider | Hprovider].
  - step_handler. rewrite ollama_checkConnection_run.
    destruct (net (ollama_url c) _) as [response | e] eqn:Hanswer;
      [destruct (ok response) eqn:Hok
      | cbv zeta; destruct (includes _ _ || includes _ _)];
      step_handler; subst c; destruct s; (eexists; split; [reflexivity |]); state_facts.
  - step_handler. rewrite validateConnection_run. fold client.
    destruct (net (baseUrl client +:+ "/auth") _) as [response | e] eqn:Hanswer;
      [destruct (N.eqb_spec (status response) 200) as [H200 | H200];
         [| destruct ((status response =? 401) || (status response =? 403))] |];
      step_handler; try rewrite fetchWorkspaces_run; step_handler;
      subst client c; destruct s; (eexists; split; [reflexivity |]);
      try destruct (run net (getWorkspaces _)); state_facts.
Qed.

Lemma checkConnection_outcome_connected :
  exists s',
    run (Fixtures.always (Fixtures.ok_json "" JNull)) (App.checkConnection App.initial)
      = Fulfilled (s', Fulfilled tt) /\
    App.status s' = "connected".
Proof.
  destruct (checkConnection_outcome (Fixtures.always (Fixtures.ok_json "" JNull)) App.initial)
    as (s' & Hrun & _ & _ & Hanything & _).
  exists s'. split; [exact Hrun |].
  apply Hanything; [discriminate |]. eexists. split; reflexivity.
Defined.

(** ** Prompts *)


Lemma handlePromptClick_refused_run (Number_toString : spec_float -> string)
    (StringToNumber : string -> spec_float) (net : Network)
    (promptId promptText : string) (s : App.State) :
  prompt_refused s = true ->
  requests net (App.handlePromptClick Number_toString StringToNumber promptId promptText s)
    = [] /\
  exists s',
    run net (App.handlePromptClick Number_toString StringToNumber promptId promptText s)
      = Fulfilled (s', Fulfilled tt) /\
    (exists msg, App.error s' = Some msg /\ msg <> "") /\
    App.config s' = App.config s /\
    App.status s' = App.status s /\
    App.isLoading s' = App.isLoading s /\
    App.response s' = App.response s /\
    App.apiResult s' = App.apiResult s.
Proof.
  unfold prompt_refused, App.handlePromptClick. intros Hrefused.
  step_handler.
  destruct (String.eqb (App.status s) "error"); simpl in Hrefused.
  - step_handler. destruct s. split; [reflexivity |].
    eexists. split; [reflexivity |]. state_facts.
  - rewrite Hrefused. step_handler. destruct s. split; [reflexivity |].
    eexists. split; [reflexivity |]. state_facts.
Qed.

(** X17: While the status is 'error', and with AnythingLLM while the API key is
    missing or blank, a click on a prompt sends nothing: it only sets the
    error text (and opens the settings for a missing key), and leaves the
    status, the response shown and the loading flag as they were. *)
Theorem prompt_refused_sends_nothing (Number_toString : spec_float -> string)
    (StringToNumber : string -> spec_float) (net : Network)
    (promptId promptText : string) (s : App.State) :
  App.status s = "error" \/
  Types.provider (App.config s) = "anythingllm" /\
  (forall key, Types.apiKey (App.config s) = Some key -> all_white key = true) ->
  requests net (App.handlePromptClick Number_toString StringToNumber promptId promptText s)
    = [] /\
  exists s',
    run net (App.handlePromptClick Number_toString StringToNumber promptId promptText s)
      = Fulfilled (s', Fulfilled tt) /\
    (exists msg, App.error s' = Some msg /\ msg <> "") /\
    App.config s' = App.config s /\
    App.status s' = App.status s /\
    App.isLoading s' = App.isLoading s /\
    App.response s' = App.response s /\
    App.apiResult s' = App.apiResult s.
Proof.
  intros Hguard. apply handlePromptClick_refused_run. unfold prompt_refused.
  destruct Hguard as [-> | [-> Hkey]]; [reflexivity |].
  rewrite orb_true_iff. right. simpl. unfold App.key_missing.
  destruct (Types.apiKey (App.config s)) as [key |]; [| reflexivity].
  unfold trim. rewrite (trimStart_white key) by auto. reflexivity.
Qed.

Lemma prompt_refused_sends_nothing_blank_key :
  requests Fixtures.unreachable
    (App.handlePromptClick (fun _ => "") (fun _ => S754_nan) "joke" "Tell me a joke"
       (App.handleConfigChange "apiKey" "   " App.initial)) = [].
Proof.
  refine (proj1 (prompt_refused_sends_nothing (fun _ => "") (fun _ => S754_nan)
                   Fixtures.unreachable "joke" "Tell me a joke"
                   (App.handleConfigChange "apiKey" "   " App.initial) _)).
  right. split; [reflexivity |]. intros key [= <-]. reflexivity.
Defined.

Lemma handlePromptClick_accepted_run (Number_toString : spec_float -> string)
    (StringToNumber : string -> spec_float) (net : Network)
    (promptId promptText : string) (s : App.State) :
  prompt_refused s = false ->
  let c := App.config s in
  requests net (App.handlePromptClick Number_toString StringToNumber promptId promptText s)
    = (if String.eqb (Types.provider c) "ollama"
       then [(ollama_url c +:+ "/api/generate", generate_init c promptText)]
       else [(chat_url (App.client_of c) (Types.model c),
              chat_init (App.client_of c) promptText None)]) /\
  exists s',
    run net (App.handlePromptClick Number_toString StringToNumber promptId promptText s)
      = Fulfilled (s', Fulfilled tt) /\
    App.isLoading s' = false /\
    App.selectedPromptId s' = Some promptId /\
    App.config s' = c /\
    (App.status s' = "connected" /\ App.error s' = None \/
     App.status s' = "error" /\
     exists msg, App.error s' = Some ("Failed to generate response. " +:+ msg)).
Proof.
  intros Hrefused c. unfold prompt_refused in Hrefused. unfold App.handlePromptClick.
  step_handler. fold c. fold c in Hrefused.
  destruct (String.eqb (App.status s) "error"); [discriminate |].
  simpl in Hrefused. rewrite Hrefused.
  step_handler.
  destruct (String.eqb (Types.provider c) "ollama").
  - step_handler. rewrite ollama_generateResponse_requests.
    destruct (run net (ollamaService.generateResponse c promptText)) as [result | e];
      step_handler; subst c; destruct s; (split; [reflexivity |]);
      (eexists; split; [reflexivity |]); state_facts; right; eauto.
  - step_handler. rewrite sendChat_requests.
    destruct (run net (sendChat (App.client_of c) (Types.model c) promptText None))
      as [result | e]; step_handler;
      [destruct (length_positive Number_toString StringToNumber (sources result))
         as [[|] | e]; step_handler |];
      subst c; destruct s; (split; [reflexivity |]);
      (eexists; split; [reflexivity |]); state_facts; right; eauto.
Qed.

(** X18: A click on a prompt never throws and never leaves the loading flag on.
    When it is not refused it sends exactly one request, records the
    prompt as selected, and ends either connected with no error or in
    status 'error' with a text that starts 'Failed to generate
    response.'; the configuration stays as it is. *)
Theorem prompt_always_settles (Number_toString : spec_float -> string)
    (StringToNumber : string -> spec_float) (net : Network)
    (promptId promptText : string) (s : App.State) :
  exists s',
    run net (App.handlePromptClick Number_toString StringToNumber promptId promptText s)
      = Fulfilled (s', Fulfilled tt) /\
    App.config s' = App.config s /\
    (App.isLoading s = false -> App.isLoading s' = false) /\
    (prompt_refused s = false ->
     length (requests net (App.handlePromptClick Number_toString StringToNumber
                             promptId promptText s)) = 1%nat /\
     App.isLoading s' = false /\
     App.selectedPromptId s' = Some promptId /\
     (App.status s' = "connected" /\ App.error s' = None \/
      App.status s' = "error" /\
      exists msg, App.error s' = Some ("Failed to generate response. " +:+ msg))).
Proof.
  destruct (prompt_refused s) eqn:Hrefused.
  - destruct (handlePromptClick_refused_run Number_toString StringToNumber net
                promptId promptText s Hrefused)
      as (_ & s' & Hrun & _ & Hconfig & _ & Hloading & _).
    exists s'. split; [exact Hrun |]. split; [exact Hconfig |].
    split; [congruence | discriminate].
  - destruct (handlePromptClick_accepted_run Number_toString StringToNumber net
                promptId promptText s Hrefused)
      as (Hrequests & s' & Hrun & Hloading & Hselected & Hconfig & Hstatus).
    exists s'. split; [exact Hrun |]. split; [exact Hconfig |].
    split; [auto |]. intros _. rewrite Hrequests.
    split; [destruct (String.eqb _ "ollama"); reflexivity | auto].
Qed.

Lemma prompt_always_settles_unreachable :
  exists s',
    run Fixtures.unreachable
      (App.handlePromptClick (fun _ => "") (fun _ => S754_nan) "joke" "Tell me a joke"
         App.initial) = Fulfilled (s', Fulfilled tt) /\
    App.isLoading s' = false /\
    App.status s' = "error" /\
    App.error s' = Some "Failed to generate response. Failed to fetch".
Proof.
  destruct (prompt_always_settles (fun _ => "") (fun _ => S754_nan) Fixtures.unreachable
              "joke" "Tell me a joke" App.initial)
    as (s' & Hrun & _ & _ & Haccepted).
  destruct (Haccepted eq_refl) as (_ & Hloading & _ & _).
  exists s'. split; [exact Hrun |]. split; [exact Hloading |].
  injection Hrun as <-. split; reflexivity.
Defined.

Lemma handleConfigChange_status (name value : string) (s : App.State) :
  App.status (App.handleConfigChange name value s) = "idle".
Proof.
  unfold App.handleConfigChange. destruct s.
  destruct (String.eqb name "apiKey" || String.eqb name "model"); reflexivity.
Qed.

(** X19: One failed prompt locks the prompts. When the call behind an accepted
    click fails, for whatever reason (the server unreachable, an HTTP
    error, a body that does not parse), the click ends in status 'error'
    with the failure's message shown; from then on every click on a prompt
    is refused without a request, until the status is reset, which any
    edit of the configuration does. *)
Theorem prompt_failure_locks_prompts (Number_toString : spec_float -> string)
    (StringToNumber : string -> spec_float) (net : Network)
    (promptId promptText : string) (s : App.State) (e : JsError) :
  let c := App.config s in
  prompt_refused s = false ->
  Types.provider c = "ollama" /\
    run net (ollamaService.generateResponse c promptText) = Rejected e \/
  Types.provider c <> "ollama" /\
    run net (sendChat (App.client_of c) (Types.model c) promptText None) = Rejected e ->
  exists s',
    run net (App.handlePromptClick Number_toString StringToNumber promptId promptText s)
      = Fulfilled (s', Fulfilled tt) /\
    App.status s' = "error" /\
    App.error s' = Some ("Failed to generate response. " +:+ err_message e) /\
    (forall net' promptId' promptText',
       requests net' (App.handlePromptClick Number_toString StringToNumber
                        promptId' promptText' s') = []) /\
    (forall name value, App.status (App.handleConfigChange name value s') = "idle").
Proof.
  intros c Hrefused Hfailure.
  assert (Hrun : exists s',
            run net (App.handlePromptClick Number_toString StringToNumber
                       promptId promptText s) = Fulfilled (s', Fulfilled tt) /\
            App.status s' = "error" /\
            App.error s' = Some ("Failed to generate response. " +:+ err_message e)).
  { subst c. unfold prompt_refused in Hrefused. unfold App.handlePromptClick.
    step_handler.
    destruct (String.eqb (App.status s) "error"); [discriminate |].
    simpl in Hrefused. rewrite Hrefused. step_handler.
    destruct Hfailure as [[Hprovider Hcall] | [Hprovider Hcall]].
    - destruct (String.eqb_spec (Types.provider (App.config s)) "ollama");
        [| contradiction].
      step_handler. rewrite Hcall. step_handler.
      destruct s. eexists. repeat split.
    - destruct (String.eqb_spec (Types.provider (App.config s)) "ollama");
        [contradiction |].
      step_handler. rewrite Hcall. step_handler.
      destruct s. eexists. repeat split. }
  destruct Hrun as (s' & Hrun & Hstatus & Herror).
  exists s'. repeat split; auto using handleConfigChange_status.
  intros net' promptId' promptText'.
  apply handlePromptClick_refused_run. unfold prompt_refused. now rewrite Hstatus.
Qed.

Lemma prompt_failure_locks_prompts_example :
  exists s',
    run (Fixtures.always Fixtures.server_error)
      (App.handlePromptClick (fun _ => "") (fun _ => S754_nan) "joke" "Tell me a joke"
         App.initial) = Fulfilled (s', Fulfilled tt) /\
    App.error s' = Some "Failed to generate response. Chat failed (500): boom" /\
    requests (Fixtures.always (Fixtures.ok_json "" (JObject ∅)))
      (App.handlePromptClick (fun _ => "") (fun _ => S754_nan) "haiku" "Write a haiku" s')
    = [].
Proof.
  destruct (prompt_failure_locks_prompts (fun _ => "") (fun _ => S754_nan)
              (Fixtures.always Fixtures.server_error) "joke" "Tell me a joke"
              App.initial (new_Error "Chat failed (500): boom") eq_refl
              ltac:(right; split; [discriminate | reflexivity]))
    as (s' & Hrun & _ & Herror & Hlocked & _).
  exists s'. split; [exact Hrun |]. split; [exact Herror | apply Hlocked].
Defined.

(** X20: With AnythingLLM a prompt is never sent without an API key: every
    request a click on a prompt issues carries a bearer token that is not
    empty and does not start with white space. *)
Theorem prompt_request_has_key (Number_toString : spec_float -> string)
    (StringToNumber : string -> spec_float) (net : Network)
    (promptId promptText : string) (s : App.State) (url : string) (init : RequestInit) :
  Types.provider (App.config s) = "anythingllm" ->
  In (url, init)
     (requests net (App.handlePromptClick Number_toString StringToNumber
                      promptId promptText s)) ->
  exists key,
    key <> "" /\ starts_white key = false /\
    headers init = [ ("Authorization", "Bearer " +:+ key);
                     ("Content-Type", "application/json");
                     ("Accept", "application/json") ].
Proof.
  intros Hprovider Hin.
  destruct (prompt_refused s) eqn:Hrefused.
  - destruct (handlePromptClick_refused_run Number_toString StringToNumber net
                promptId promptText s Hrefused) as [Hnone _].
    rewrite Hnone in Hin. destruct Hin.
  - destruct (handlePromptClick_accepted_run Number_toString StringToNumber net
                promptId promptText s Hrefused) as [Hone _].
    rewrite Hone, Hprovider in Hin. simpl in Hin. destruct Hin as [[= <- <-] | []].
    unfold prompt_refused in Hrefused. rewrite Hprovider in Hrefused.
    apply orb_false_elim in Hrefused as [_ Hkey]. simpl in Hkey.
    unfold App.key_missing in Hkey. unfold App.client_of.
    destruct (Types.apiKey (App.config s)) as [key |]; [| discriminate].
    exists (trim key). split; [| split].
    + intros Hempty. rewrite Hempty in Hkey. discriminate.
    + destruct (trim_spec key) as (_ & _ & _ & _ & _ & Hstart & _). exact Hstart.
    + destruct key; reflexivity.
Qed.

Lemma prompt_request_has_key_initial :
  exists key,
    key <> "" /\ starts_white key = false /\
    headers (chat_init (App.client_of (App.config App.initial)) "Tell me a joke" None)
    = [ ("Authorization", "Bearer " +:+ key);
        ("Content-Type", "application/json");
        ("Accept", "application/json") ].
Proof.
  refine (prompt_request_has_key (fun _ => "") (fun _ => S754_nan) Fixtures.unreachable
            "joke" "Tell me a joke" App.initial _ _ eq_refl _).
  left. reflexivity.
Defined.

(** ** The playground *)

Lemma registry_callable (i : nat) (definition : SDKMethodDefinition) :
  SDK_METHODS !! i = Some definition ->
  exists formals, callable (sdk_method definition) = Some formals.
Proof.
  intros Hi.
  do 7 (destruct i as [| i]; [injection Hi as <-; eexists; reflexivity |]).
  discriminate Hi.
Qed.

Lemma registry_refresh (i : nat) (definition : SDKMethodDefinition) :
  SDK_METHODS !! i = Some definition ->
  includes (sdk_method definition) "Workspace" = (i <? 4)%nat.
Proof.
  intros Hi.
  do 7 (destruct i as [| i]; [injection Hi as <-; vm_compute; reflexivity |]).
  discriminate Hi.
Qed.

Lemma setApiResult_twice (v w : option App.Display) (s : App.State) :
  App.setApiResult v (App.setApiResult w s) = App.setApiResult v s.
Proof. destruct s; reflexivity. Qed.

(** What [executeApiMethod] leaves behind for a descriptor of the registry. *)
Lemma executeApiMethod_run (Number_toString : spec_float -> string) (net : Network)
    (s : App.State) (definition : SDKMethodDefinition) :
  SDK_METHODS !! App.selectedMethodIdx s = Some definition ->
  let client := App.client_of (App.config s) in
  let call := apply_method Number_toString client (sdk_method definition)
                (positional_args definition (App.methodArgs s)) in
  run net (App.executeApiMethod Number_toString s) =
  Fulfilled
    (match run net call with
     | Fulfilled result =>
         let shown := App.setApiResult (Some (App.JSON_pretty result)) s in
         if (App.selectedMethodIdx s <? 4)%nat then
           match run net (getWorkspaces client) with
           | Fulfilled workspaces => App.setAvailableWorkspaces workspaces shown
           | Rejected _ => shown
           end
         else shown
     | Rejected e => App.setApiResult (Some (App.Text ("Error: " +:+ err_message e))) s
     end, Fulfilled tt) /\
  requests net (App.executeApiMethod Number_toString s) =
  (requests net call ++
   match run net call with
   | Fulfilled _ =>
       if (App.selectedMethodIdx s <? 4)%nat
       then [(baseUrl client +:+ "/workspaces", get_init client)] else []
   | Rejected _ => []
   end)%list.
Proof.
  intros Hdefinition client call.
  destruct (registry_callable _ _ Hdefinition) as [formals Hcallable].
  pose proof (registry_refresh _ _ Hdefinition) as Hrefresh.
  unfold App.executeApiMethod. step_handler.
  rewrite Hdefinition, Hcallable. step_handler. fold client call.
  destruct (run net call) as [result | e]; step_handler.
  - rewrite Hrefresh. destruct (App.selectedMethodIdx s <? 4)%nat; step_handler.
    + rewrite fetchWorkspaces_run, fetchWorkspaces_requests.
      cbn [default from_option]. step_handler.
      rewrite ?app_nil_r, !setApiResult_twice. split; [| reflexivity].
      destruct (run net (getWorkspaces client)); reflexivity.
    + rewrite ?app_nil_r, !setApiResult_twice. split; reflexivity.
  - rewrite ?app_nil_r, !setApiResult_twice. split; reflexivity.
Qed.



(** X22: The playground fetches the workspace list again after a successful
    call of one of the first four methods of the registry (getWorkspaces,
    getWorkspace, createWorkspace, deleteWorkspace), and after no other
    call and no failed call. So a successful 'Get All Workspaces' requests
    the list twice. *)
Theorem playground_refreshes_workspaces (Number_toString : spec_float -> string)
    (net : Network) (s : App.State) (definition : SDKMethodDefinition) :
  SDK_METHODS !! App.selectedMethodIdx s = Some definition ->
  let client := App.client_of (App.config s) in
  let call := apply_method Number_toString client (sdk_method definition)
                (positional_args definition (App.methodArgs s)) in
  let list_request := (baseUrl client +:+ "/workspaces", get_init client) in
  (forall e, run net call = Rejected e ->
     requests net (App.executeApiMethod Number_toString s) = requests net call) /\
  (forall result, run net call = Fulfilled result ->
     requests net (App.executeApiMethod Number_toString s) =
     (requests net call ++
      if (App.selectedMethodIdx s <? 4)%nat then [list_request] else [])%list) /\
  (App.selectedMethodIdx s = 0%nat ->
   forall result, run net call = Fulfilled result ->
     requests net (App.executeApiMethod Number_toString s) = [list_request; list_request]).
Proof.
  intros Hdefinition client call list_request.
  destruct (executeApiMethod_run Number_toString net s definition Hdefinition)
    as [_ Hrequests].
  fold client call in Hrequests. rewrite Hrequests.
  split; [| split].
  - intros e ->. apply app_nil_r.
  - intros result ->. reflexivity.
  - intros Hfirst result ->. rewrite Hfirst in *. injection Hdefinition as <-.
    subst call. simpl sdk_method.
    change (apply_method Number_toString client "getWorkspaces" _)
      with (perform client GetWorkspaces).
    rewrite perform_requests. reflexivity.
Qed.

Lemma playground_refreshes_workspaces_example :
  requests (Fixtures.always (Examples.listing Examples.two_workspaces))
    (App.executeApiMethod (fun _ => "") App.initial)
  = [ (baseUrl (App.client_of (App.config App.initial)) +:+ "/workspaces",
       get_init (App.client_of (App.config App.initial)));
      (baseUrl (App.client_of (App.config App.initial)) +:+ "/workspaces",
       get_init (App.client_of (App.config App.initial))) ].
Proof.
  exact (proj2 (proj2 (playground_refreshes_workspaces (fun _ => "")
                         (Fixtures.always (Examples.listing Examples.two_workspaces))
                         App.initial _ eq_refl))
           eq_refl (JArray Examples.two_workspaces) eq_refl).
Defined.

(** X23: The reflective call of the playground is a call by parameter name:
    for every descriptor of the registry, when each declared parameter is
    bound to a string, calling the method on the positional arguments built
    from the bindings is calling it with every formal parameter set to the
    string bound to its name. *)
Theorem reflective_call_by_name (Number_toString : spec_float -> string)
    (this : AnythingLLMClient) (i : nat) (definition : SDKMethodDefinition)
    (methodArgs : gmap string JsValue) (value : string -> string) :
  SDK_METHODS !! i = Some definition ->
  (forall param, param ∈ params definition ->
     methodArgs !! param_name param = Some (JString (value (param_name param)))) ->
  apply_method Number_toString this (sdk_method definition)
    (positional_args definition methodArgs)
  = call_by_name this (sdk_method definition) value.
Proof.
  intros Hi Hbound.
  assert (Hargs : positional_args definition methodArgs
                  = map (fun p => JString (value (param_name p))) (params definition)).
  { unfold positional_args. apply map_ext_in. intros p Hp.
    rewrite (Hbound p) by (now apply list_elem_of_In). reflexivity. }
  rewrite Hargs. clear Hargs Hbound.
  do 7 (destruct i as [| i]; [injection Hi as <-; reflexivity |]).
  discriminate Hi.
Qed.

Lemma reflective_call_by_name_sendChat :
  apply_method (fun _ => "") Fixtures.client "sendChat"
    [JString "finance-docs"; JString "hi"; JString "query"]
  = then_ (sendChat Fixtures.client "finance-docs" "hi" (Some "query")) ChatResult_object.
Proof.
  pose (bound := ({[ "slug" := JString "finance-docs"; "message" := JString "hi";
                     "mode" := JString "query" ]} : gmap string JsValue)).
  pose (value := fun name : string =>
                   if String.eqb name "slug" then "finance-docs"
                   else if String.eqb name "message" then "hi" else "query").
  refine (reflective_call_by_name (fun _ => "") Fixtures.client 5 _ bound value eq_refl _).
  intros param Hparam.
  repeat (apply elem_of_cons in Hparam as [-> | Hparam]; [reflexivity |]).
  inversion Hparam.
Defined.

(** ** Arguments of the playground *)

Lemma prefill_state_args (s : App.State) (definition : SDKMethodDefinition) :
  SDK_METHODS !! App.selectedMethodIdx s = Some definition ->
  App.prefill_state s =
  Some (App.setApiResult None
          (App.setMethodArgs
             (fun _ => prefill definition (Types.model (App.config s))) s)).
Proof.
  intros Hdefinition. unfold App.prefill_state, prefill_effect.
  now rewrite Hdefinition.
Qed.

Lemma methodArgs_set (f : gmap string JsValue -> gmap string JsValue)
    (v : option App.Display) (s : App.State) :
  App.methodArgs (App.setApiResult v (App.setMethodArgs f s)) = f (App.methodArgs s).
Proof. destruct s; reflexivity. Qed.

(** X24: Selecting a workspace other than the current one runs the pre-fill
    effect, which builds the arguments of the selected method afresh: what
    was typed into the argument fields is gone, every slug parameter holds
    the new slug, and the result shown is cleared. Selecting the workspace
    that is already current changes nothing. *)
Theorem selecting_workspace_resets_arguments (s : App.State) (slug : string)
    (definition : SDKMethodDefinition) :
  SDK_METHODS !! App.selectedMethodIdx s = Some definition ->
  let selected := App.selectWorkspace slug s in
  (Types.model (App.config s) <> slug ->
   exists s',
     use_effect prefill_deps App.prefill_state s selected = Some s' /\
     App.methodArgs s' = prefill definition slug /\
     App.apiResult s' = None /\
     Types.model (App.config s') = slug /\
     (slug <> "" ->
      forall param, param ∈ params definition -> param_type param = TSlug ->
        App.methodArgs s' !! param_name param = Some (JString slug))) /\
  (Types.model (App.config s) = slug ->
   use_effect prefill_deps App.prefill_state s selected = Some selected /\
   App.methodArgs selected = App.methodArgs s /\
   App.apiResult selected = App.apiResult s).
Proof.
  intros Hdefinition selected.
  assert (Hidx : App.selectedMethodIdx selected = App.selectedMethodIdx s)
    by (destruct s; reflexivity).
  assert (Hmodel : Types.model (App.config selected) = slug)
    by (destruct s; reflexivity).
  unfold use_effect, prefill_deps. rewrite Hidx, Hmodel. split.
  - intros Hother. destruct (decide _) as [[= Heq] | _]; [contradiction |].
    rewrite (prefill_state_args selected definition) by (now rewrite Hidx).
    rewrite Hmodel. eexists. split; [reflexivity |].
    split; [apply methodArgs_set |]. split; [destruct s; reflexivity |].
    split; [destruct s; reflexivity |].
    intros Hslug param Hparam Htype. rewrite methodArgs_set.
    unfold prefill.
    rewrite (foldl_prefill_lookup slug (params definition) ∅ param
               (registry_param_names_distinct _ _ Hdefinition) Hparam).
    unfold prefilled_value. rewrite Htype. destruct slug; [contradiction | reflexivity].
  - intros Hsame. destruct (decide _) as [_ | Hne]; [| congruence].
    split; [reflexivity |]. destruct s; split; reflexivity.
Qed.

Lemma selecting_workspace_resets_arguments_example :
  exists s',
    use_effect prefill_deps App.prefill_state
      (App.edit_argument "message" "typed text"
         (App.setSelectedMethodIdx 5 App.initial))
      (App.selectWorkspace "finance-docs"
         (App.edit_argument "message" "typed text"
            (App.setSelectedMethodIdx 5 App.initial))) = Some s' /\
    App.methodArgs s' !! "message" = Some (JString "") /\
    App.methodArgs s' !! "slug" = Some (JString "finance-docs").
Proof.
  destruct (proj1 (selecting_workspace_resets_arguments
                     (App.edit_argument "message" "typed text"
                        (App.setSelectedMethodIdx 5 App.initial))
                     "finance-docs" _ eq_refl) ltac:(discriminate))
    as (s' & Heffect & Hargs & _).
  exists s'. split; [exact Heffect |]. rewrite Hargs. split; reflexivity.
Defined.

Lemma registry_defaults_are_strings (i : nat) (definition : SDKMethodDefinition)
    (param : SDKMethodParam) (model : string) :
  SDK_METHODS !! i = Some definition -> param ∈ params definition ->
  exists text, prefilled_value model param = JString text.
Proof.
  intros Hi Hparam. unfold prefilled_value.
  destruct (is_slug (param_type param) && truthy (JString model)); [eauto |].
  do 7 (destruct i as [| i];
        [injection Hi as <-;
         repeat (apply elem_of_cons in Hparam as [-> | Hparam]; [eexists; reflexivity |]);
         inversion Hparam |]).
  discriminate Hi.
Qed.

Lemma strings_only_insert (key text : string) (methodArgs : gmap string JsValue) :
  strings_only methodArgs -> strings_only (<[key := JString text]> methodArgs).
Proof.
  intros Hstrings k v. rewrite lookup_insert. case_decide.
  - intros [= <-]. eauto.
  - apply Hstrings.
Qed.

Lemma strings_only_foldl (model : string) (l : list SDKMethodParam)
    (acc : gmap string JsValue) :
  (forall param, param ∈ l -> exists text, prefilled_value model param = JString text) ->
  strings_only acc -> strings_only (foldl (prefill_param model) acc l).
Proof.
  revert acc. induction l as [| p l IH]; intros acc Hl Hacc; [exact Hacc |].
  simpl. apply IH.
  - intros param Hparam. apply Hl. now right.
  - rewrite prefill_param_insert.
    destruct (Hl p ltac:(left)) as [text ->]. now apply strings_only_insert.
Qed.

(** X25: Every argument of the playground is a string. The pre-fill effect
    binds each declared parameter of the selected method to a string, and
    typing into an argument field or taking the current workspace keeps
    every bound value a string. *)
Theorem playground_arguments_are_strings (s : App.State)
    (definition : SDKMethodDefinition) :
  SDK_METHODS !! App.selectedMethodIdx s = Some definition ->
  (exists s',
     App.prefill_state s = Some s' /\
     strings_only (App.methodArgs s') /\
     forall param, param ∈ params definition ->
       exists text, App.methodArgs s' !! param_name param = Some (JString text)) /\
  (forall name value,
     strings_only (App.methodArgs s) ->
     strings_only (App.methodArgs (App.edit_argument name value s)) /\
     strings_only (App.methodArgs (App.use_current_workspace name s))).
Proof.
  intros Hdefinition. split.
  - rewrite (prefill_state_args s definition Hdefinition).
    eexists. split; [reflexivity |]. rewrite methodArgs_set.
    assert (Hstrings : strings_only (prefill definition (Types.model (App.config s)))).
    { apply strings_only_foldl.
      - intros param Hparam. now apply (registry_defaults_are_strings _ _ _ _ Hdefinition).
      - intros key v. rewrite lookup_empty. discriminate. }
    split; [exact Hstrings |]. intros param Hparam.
    pose proof (foldl_prefill_lookup (Types.model (App.config s)) (params definition) ∅
                  param (registry_param_names_distinct _ _ Hdefinition) Hparam) as Hbound.
    fold (prefill definition (Types.model (App.config s))) in Hbound.
    destruct (Hstrings _ _ Hbound) as [text Htext].
    exists text. now rewrite Hbound, Htext.
  - intros name value Hstrings.
    split; destruct s; simpl in *; now apply strings_only_insert.
Qed.

Lemma playground_arguments_are_strings_initial :
  exists s',
    App.prefill_state App.initial = Some s' /\ strings_only (App.methodArgs s').
Proof.
  destruct (proj1 (playground_arguments_are_strings App.initial _ eq_refl))
    as (s' & Hstate & Hstrings & _).
  exists s'. split; assumption.
Defined.

(** ** Switching the provider *)

Lemma assign_keeps_provider (prev : Types.AppConfig) (name value : string) :
  name <> "provider" -> Types.provider (App.assign prev name value) = Types.provider prev.
Proof.
  intros Hname. unfold App.assign.
  destruct (String.eqb_spec name "provider"); [contradiction |].
  repeat match goal with
         | |- context [if String.eqb ?a ?b then _ else _] => destruct (String.eqb a b)
         end; reflexivity.
Qed.

(** X26: Choosing another provider discards the port and the model that were
    typed: the effect on the provider sets the port to the provider's
    default (11434 for Ollama, 3001 otherwise) and the model to 'llama3' or
    'mini', keeps the host and the API key, and empties the workspace list
    and the API result. An edit of any other field does not run the
    effect and keeps what was typed. *)
Theorem provider_switch_resets_port_and_model (s : App.State) (name value : string) :
  let next := App.handleConfigChange name value s in
  let after := use_effect provider_deps (fun s => Some (App.provider_effect s)) s next in
  (name = "provider" -> value <> Types.provider (App.config s) ->
   exists s',
     after = Some s' /\
     Types.provider (App.config s') = value /\
     Types.port (App.config s')
       = (if String.eqb value "ollama" then "11434" else "3001") /\
     Types.model (App.config s')
       = (if String.eqb value "ollama" then "llama3" else "mini") /\
     Types.host (App.config s') = Types.host (App.config s) /\
     Types.apiKey (App.config s') = Types.apiKey (App.config s) /\
     App.status s' = "idle" /\
     App.availableWorkspaces s' = JArray [] /\
     App.apiResult s' = None) /\
  (name <> "provider" ->
   after = Some next /\
   Types.provider (App.config next) = Types.provider (App.config s)).
Proof.
  intros next after. split.
  - intros -> Hother. subst after next. unfold use_effect, provider_deps.
    destruct s as [c st r l e p k o w i a x]. simpl.
    destruct (decide _) as [Heq | _]; [simpl in Hother; congruence |].
    eexists. split; [reflexivity |]. simpl. repeat split.
  - intros Hname.
    assert (Hprovider : Types.provider (App.config next) = Types.provider (App.config s)).
    { subst next. unfold App.handleConfigChange. destruct s. simpl.
      destruct (String.eqb name "apiKey" || String.eqb name "model"); simpl;
        now apply assign_keeps_provider. }
    split; [| exact Hprovider].
    subst after. unfold use_effect, provider_deps.
    destruct (decide _) as [_ | Hne]; [reflexivity | congruence].
Qed.

Lemma provider_switch_resets_port_and_model_ollama :
  exists s',
    use_effect provider_deps (fun s => Some (App.provider_effect s))
      (App.handleConfigChange "port" "8080" App.initial)
      (App.handleConfigChange "provider" "ollama"
         (App.handleConfigChange "port" "8080" App.initial)) = Some s' /\
    Types.port (App.config s') = "11434" /\
    Types.model (App.config s') = "llama3".
Proof.
  destruct (proj1 (provider_switch_resets_port_and_model
                     (App.handleConfigChange "port" "8080" App.initial)
                     "provider" "ollama") eq_refl ltac:(discriminate))
    as (s' & Hafter & _ & Hport & Hmodel & _).
  exists s'. split; [exact Hafter |]. split; assumption.
Defined.

